(** * Wallet ledger and withdrawal lifecycle of [backend/server.py]

    A shallow embedding of the request handlers of the rewards-and-payout
    service, followed by the properties of the ledger that its specification
    states.

    Modelling conventions.
    - A MongoDB collection is the list of its documents in insertion order;
      [find_one] returns the first match and [update_one] changes the first
      match only, as the driver does.
    - A handler reads the database it was started on and emits its writes in
      program order; the database it leaves behind is the replay of those
      writes.  An [HTTPException] stops the handler and keeps the writes made
      so far.
    - Python [float] amounts are exact rationals ([Q]): the routes are
      modelled on amounts that are numbers, and equalities between amounts
      are stated with [==].  Where binary64 departs from numbers (a NaN
      amount, the rounding of a sum) the arithmetic of the routes is given
      once more on primitive floats, in [Binary64].
    - [uuid.uuid4()] and [datetime.now(timezone.utc)] are inputs of a
      request: an [Env] gives the k-th value each of them returns during the
      handler, and holds bcrypt and the interpreter's rendering of an enum
      member in an f-string.
    - A JWT is represented by the outcome of [jwt.decode] on it. *)

From Stdlib Require Import String Ascii List Bool Arith NArith ZArith QArith Lia Lqa.
From Stdlib Require Import Sorted Permutation PrimFloat.
Import ListNotations.

Local Open Scope string_scope.
Local Open Scope list_scope.
Local Open Scope Q_scope.

(** ** Enums *)

Inductive WithdrawalStatus := PENDING | APPROVED | REJECTED.

Definition WithdrawalStatus_value (s : WithdrawalStatus) : string :=
  match s with
  | PENDING => "pending"
  | APPROVED => "approved"
  | REJECTED => "rejected"
  end.

Definition WithdrawalStatus_eqb (a b : WithdrawalStatus) : bool :=
  match a, b with
  | PENDING, PENDING | APPROVED, APPROVED | REJECTED, REJECTED => true
  | _, _ => false
  end.

Inductive PaymentMethod := ESEWA | KHALTI.

(** ** Timestamps

    [datetime.now(timezone.utc)] is an aware datetime in UTC;
    [prepare_for_mongo] stores its [isoformat()]. *)

Record datetime := {
  year : N; month : N; day : N;
  hour : N; minute : N; second : N; microsecond : N
}.

Definition digit (n : N) : ascii := ascii_of_N (48 + n mod 10).

(** [pad w n] is the [%0wd] rendering of [n], for [n] of at most [w]
    digits as the fields of a datetime are. *)
Fixpoint pad (w : nat) (n : N) : string :=
  match w with
  | O => EmptyString
  | S w' => (pad w' (n / 10) ++ String (digit n) EmptyString)%string
  end.

Definition isoformat (d : datetime) : string :=
  (pad 4 (year d) ++ "-" ++ pad 2 (month d) ++ "-" ++ pad 2 (day d) ++ "T"
   ++ pad 2 (hour d) ++ ":" ++ pad 2 (minute d) ++ ":" ++ pad 2 (second d)
   ++ (if N.eqb (microsecond d) 0 then "" else "." ++ pad 6 (microsecond d))
   ++ "+00:00")%string.

(** ** Documents

    Field names are those of the pydantic models; a prefix tells the
    collections apart ([u_], [aw_], [tx_], [wd_]).  Timestamps are held as
    stored, that is after [prepare_for_mongo]. *)

Record User := {
  u_id : string;
  email : string;
  password_hash : string;
  full_name : string;
  wallet_balance : Q;
  total_earned : Q;
  ads_watched : Z;
  referral_code : string;
  referred_by : option string;
  is_admin : bool;
  u_created_at : string
}.

Record AdWatch := {
  aw_id : string;
  aw_user_id : string;
  aw_ad_type : string;
  aw_reward_amount : Q;
  aw_watched_at : string
}.

Record WalletTransaction := {
  tx_id : string;
  tx_user_id : string;
  tx_type : string;
  tx_amount : Q;
  tx_description : string;
  tx_created_at : string
}.

Record WithdrawalRequest := {
  wd_id : string;
  wd_user_id : string;
  wd_amount : Q;
  wd_payment_method : PaymentMethod;
  wd_payment_id : string;
  wd_status : WithdrawalStatus;
  wd_requested_at : string;
  wd_processed_at : option string;
  wd_admin_notes : option string
}.

(** Request bodies. *)

Record UserCreate := {
  uc_email : string;
  uc_password : string;
  uc_full_name : string;
  uc_referral_code : option string
}.

Record UserLogin := { ul_email : string; ul_password : string }.

Record AdWatchCreate := { awc_ad_type : string }.

Record WithdrawalCreate := {
  wc_amount : Q;
  wc_payment_method : PaymentMethod;
  wc_payment_id : string
}.

Record WithdrawalUpdate := {
  wu_status : WithdrawalStatus;
  wu_admin_notes : option string
}.

(** ** The database *)

Record Database := {
  users : list User;
  ad_watches : list AdWatch;
  transactions : list WalletTransaction;
  withdrawals : list WithdrawalRequest
}.

Definition empty_db : Database :=
  {| users := []; ad_watches := []; transactions := []; withdrawals := [] |}.

(** [update_one]: the first document that matches is changed. *)
Fixpoint update_first {A : Type} (p : A -> bool) (f : A -> A) (l : list A) : list A :=
  match l with
  | [] => []
  | x :: l' => if p x then f x :: l' else x :: update_first p f l'
  end.

(** The writes the handlers issue. *)
Inductive write :=
| users_inc (uid : string) (d_wallet_balance d_total_earned : Q) (d_ads_watched : Z)
| users_insert (u : User)
| ad_watches_insert (a : AdWatch)
| transactions_insert (t : WalletTransaction)
| withdrawals_insert (w : WithdrawalRequest)
| withdrawals_set (wid : string) (status : WithdrawalStatus) (processed_at : string)
    (admin_notes : option string).

Definition has_id (uid : string) (u : User) : bool := String.eqb (u_id u) uid.
Definition has_email (e : string) (u : User) : bool := String.eqb (email u) e.
Definition has_referral_code (c : string) (u : User) : bool :=
  String.eqb (referral_code u) c.
Definition has_wd_id (wid : string) (w : WithdrawalRequest) : bool :=
  String.eqb (wd_id w) wid.

(** [{"$inc": {...}}] on a user document.  The sums are exact here; the
    store adds binary64 numbers and rounds (see [Binary64.refund]). *)
Definition inc_user (db de : Q) (da : Z) (u : User) : User :=
  {| u_id := u_id u; email := email u; password_hash := password_hash u;
     full_name := full_name u;
     wallet_balance := wallet_balance u + db;
     total_earned := total_earned u + de;
     ads_watched := (ads_watched u + da)%Z;
     referral_code := referral_code u; referred_by := referred_by u;
     is_admin := is_admin u; u_created_at := u_created_at u |}.

(** [{"$set": update_dict}] on a withdrawal document; [admin_notes] is in
    [update_dict] only when it was given. *)
Definition set_withdrawal (st : WithdrawalStatus) (at_ : string)
    (notes : option string) (w : WithdrawalRequest) : WithdrawalRequest :=
  {| wd_id := wd_id w; wd_user_id := wd_user_id w; wd_amount := wd_amount w;
     wd_payment_method := wd_payment_method w; wd_payment_id := wd_payment_id w;
     wd_status := st;
     wd_requested_at := wd_requested_at w;
     wd_processed_at := Some at_;
     wd_admin_notes := match notes with Some n => Some n | None => wd_admin_notes w end |}.

Definition apply_write (d : Database) (w : write) : Database :=
  match w with
  | users_inc uid db de da =>
      {| users := update_first (has_id uid) (inc_user db de da) (users d);
         ad_watches := ad_watches d; transactions := transactions d;
         withdrawals := withdrawals d |}
  | users_insert u =>
      {| users := users d ++ [u];
         ad_watches := ad_watches d; transactions := transactions d;
         withdrawals := withdrawals d |}
  | ad_watches_insert a =>
      {| users := users d; ad_watches := ad_watches d ++ [a];
         transactions := transactions d; withdrawals := withdrawals d |}
  | transactions_insert t =>
      {| users := users d; ad_watches := ad_watches d;
         transactions := transactions d ++ [t]; withdrawals := withdrawals d |}
  | withdrawals_insert w =>
      {| users := users d; ad_watches := ad_watches d;
         transactions := transactions d; withdrawals := withdrawals d ++ [w] |}
  | withdrawals_set wid st at_ notes =>
      {| users := users d; ad_watches := ad_watches d;
         transactions := transactions d;
         withdrawals := update_first (has_wd_id wid) (set_withdrawal st at_ notes)
                          (withdrawals d) |}
  end.

Definition replay (d : Database) (ws : list write) : Database :=
  fold_left apply_write ws d.

(** ** Handlers *)

Record HTTPException := { status_code : nat; detail : string }.

Inductive outcome (A : Type) :=
| Return (a : A)
| Raise (e : HTTPException).
Arguments Return {A} a.
Arguments Raise {A} e.

(** A handler sees the database it starts on and yields its outcome with the
    writes it made, oldest first. *)
Definition handler (A : Type) : Type := Database -> outcome A * list write.

Definition ret {A} (a : A) : handler A := fun _ => (Return a, []).

Definition raise {A} (code : nat) (msg : string) : handler A :=
  fun _ => (Raise {| status_code := code; detail := msg |}, []).

Definition bind {A B} (m : handler A) (f : A -> handler B) : handler B :=
  fun d =>
    match m d with
    | (Return a, ws) =>
        let (r, ws') := f a (replay d ws) in (r, ws ++ ws')
    | (Raise e, ws) => (Raise e, ws)
    end.

Definition read {A} (q : Database -> A) : handler A := fun d => (Return (q d), []).

Definition commit (w : write) : handler unit := fun _ => (Return tt, [w]).

Declare Scope handler_scope.
Delimit Scope handler_scope with handler.
Notation "x <- m ;; k" := (bind m (fun x => k))
  (at level 61, m at next level, right associativity) : handler_scope.
Notation "m ;;; k" := (bind m (fun _ => k))
  (at level 61, right associativity) : handler_scope.
Local Open Scope handler_scope.

(** The database a handler leaves behind, with its outcome. *)
Definition run {A} (h : handler A) (d : Database) : outcome A * Database :=
  let (r, ws) := h d in (r, replay d ws).

(** ** External collaborators

    What a request obtains from outside the ledger while it runs: the k-th
    [uuid.uuid4()] as a string, the k-th [datetime.now(timezone.utc)],
    bcrypt, and how the interpreter renders a [WithdrawalStatus] member
    inside an f-string: by its value ("rejected") before Python 3.11, as
    "WithdrawalStatus.REJECTED" from 3.11 on. *)

Record Env := {
  uuid4 : nat -> string;
  now : nat -> datetime;
  hash_password : string -> string;
  verify_password : string -> string -> bool;
  format_status : WithdrawalStatus -> string
}.

(** The outcome of [jwt.decode] on the bearer token. *)
Inductive credentials :=
| ExpiredSignatureError
| InvalidTokenError
| Payload (user_id : option string).

(** The payload [create_jwt_token] signs; it expires 86400 seconds after
    issue. *)
Record token := { tk_user_id : string; tk_email : string }.

Definition create_jwt_token (user_id email : string) : token :=
  {| tk_user_id := user_id; tk_email := email |}.

(** ** Queries *)

Definition find_user_by_id (uid : string) (d : Database) : option User :=
  find (has_id uid) (users d).

Definition find_user_by_email (e : string) (d : Database) : option User :=
  find (has_email e) (users d).

Definition find_user_by_referral_code (c : string) (d : Database) : option User :=
  find (has_referral_code c) (users d).

Definition find_withdrawal (wid : string) (d : Database) : option WithdrawalRequest :=
  find (has_wd_id wid) (withdrawals d).

(** [.sort(key, -1)]: insertion into a list that is already in descending
    order of [key]; strings compare byte by byte, and among equal keys the
    earlier document stays first. *)
Fixpoint insert_desc {A : Type} (key : A -> string) (x : A) (l : list A) : list A :=
  match l with
  | [] => [x]
  | y :: l' =>
      if String.leb (key y) (key x) then x :: y :: l'
      else y :: insert_desc key x l'
  end.

Definition sort_desc {A : Type} (key : A -> string) (l : list A) : list A :=
  fold_right (insert_desc key) [] l.

(** [.to_list(n)] *)
Definition to_list {A : Type} (n : nat) (l : list A) : list A := firstn n l.

(** ** Authentication

    [Depends(get_current_user)]: the dependency is resolved first and its
    result is passed to the route as [current_user]. *)

Definition get_current_user (c : credentials) : handler User :=
  match c with
  | ExpiredSignatureError => raise 401 "Token expired"
  | InvalidTokenError => raise 401 "Invalid token"
  | Payload None => raise 401 "Invalid token"
  | Payload (Some user_id) =>
      user <- read (find_user_by_id user_id) ;;
      match user with
      | None => raise 401 "User not found"
      | Some u => ret u
      end
  end.

Definition get_admin_user (c : credentials) : handler User :=
  current_user <- get_current_user c ;;
  if negb (is_admin current_user) then raise 403 "Admin access required"
  else ret current_user.

Definition Depends {A} (dependency : handler User) (route : User -> handler A)
  : handler A :=
  current_user <- dependency ;; route current_user.

(** ** Routes *)

Record UserResponse := {
  ur_id : string;
  ur_email : string;
  ur_full_name : string;
  ur_wallet_balance : Q;
  ur_total_earned : Q;
  ur_ads_watched : Z;
  ur_referral_code : string;
  ur_is_admin : bool;
  ur_created_at : string
}.

Definition user_response (u : User) : UserResponse :=
  {| ur_id := u_id u; ur_email := email u; ur_full_name := full_name u;
     ur_wallet_balance := wallet_balance u; ur_total_earned := total_earned u;
     ur_ads_watched := ads_watched u; ur_referral_code := referral_code u;
     ur_is_admin := is_admin u; ur_created_at := u_created_at u |}.

Definition upper_char (c : ascii) : ascii :=
  let n := nat_of_ascii c in
  if (97 <=? n)%nat && (n <=? 122)%nat then ascii_of_nat (n - 32) else c.

Fixpoint upper (s : string) : string :=
  match s with
  | EmptyString => EmptyString
  | String c s' => String (upper_char c) (upper s')
  end.

(** Truth value of an [Optional[str]]: [None] and the empty string are
    false. *)
Definition truthy (s : option string) : option string :=
  match s with
  | Some EmptyString => None
  | other => other
  end.

Definition REFERRAL_BONUS : Q := 5.
Definition REWARD_AMOUNT : Q := 1 # 2.
Definition MINIMUM_WITHDRAWAL : Q := 10.

(** The user built by [signup] before the referral is looked at. *)
Definition new_user (e : Env) (user_data : UserCreate) : User :=
  {| u_id := uuid4 e 0;
     email := uc_email user_data;
     password_hash := hash_password e (uc_password user_data);
     full_name := uc_full_name user_data;
     wallet_balance := 0;
     total_earned := 0;
     ads_watched := 0;
     referral_code := upper (substring 0 8 (uuid4 e 1));
     referred_by := None;
     is_admin := false;
     u_created_at := isoformat (now e 0) |}.

Definition set_referred_by (r : string) (u : User) : User :=
  {| u_id := u_id u; email := email u; password_hash := password_hash u;
     full_name := full_name u; wallet_balance := wallet_balance u;
     total_earned := total_earned u; ads_watched := ads_watched u;
     referral_code := referral_code u; referred_by := Some r;
     is_admin := is_admin u; u_created_at := u_created_at u |}.

Definition referral_transaction (e : Env) (referrer : User) (user : User)
  : WalletTransaction :=
  {| tx_id := uuid4 e 2;
     tx_user_id := u_id referrer;
     tx_type := "referral_bonus";
     tx_amount := REFERRAL_BONUS;
     tx_description := ("Referral bonus for inviting " ++ full_name user)%string;
     tx_created_at := isoformat (now e 1) |}.

(** The referrer a supplied code resolves to: the lookup runs only for a
    code that is given and not empty. *)
Definition resolve_referral (code : option string) (d : Database) : option User :=
  match truthy code with
  | Some c => find_user_by_referral_code c d
  | None => None
  end.

Definition signup (e : Env) (user_data : UserCreate) : handler (token * UserResponse) :=
  existing_user <- read (find_user_by_email (uc_email user_data)) ;;
  match existing_user with
  | Some _ => raise 400 "Email already registered"
  | None =>
      let user := new_user e user_data in
      user <-
        (referrer <- read (resolve_referral (uc_referral_code user_data)) ;;
         match referrer with
         | Some referrer =>
             let user := set_referred_by (u_id referrer) user in
             commit (users_inc (u_id referrer) REFERRAL_BONUS REFERRAL_BONUS 0) ;;;
             commit (transactions_insert (referral_transaction e referrer user)) ;;;
             ret user
         | None => ret user
         end) ;;
      commit (users_insert user) ;;;
      ret (create_jwt_token (u_id user) (email user), user_response user)
  end.

Definition login (e : Env) (login_data : UserLogin) : handler (token * UserResponse) :=
  user <- read (find_user_by_email (ul_email login_data)) ;;
  match user with
  | None => raise 401 "Invalid email or password"
  | Some user =>
      if negb (verify_password e (ul_password login_data) (password_hash user))
      then raise 401 "Invalid email or password"
      else ret (create_jwt_token (u_id user) (email user), user_response user)
  end.

Definition get_current_user_info (current_user : User) : handler UserResponse :=
  ret (user_response current_user).

Record WatchAdResponse := {
  war_message : string;
  war_reward : Q;
  war_new_balance : Q
}.

Definition ad_transaction (e : Env) (ad_data : AdWatchCreate) (current_user : User)
  : WalletTransaction :=
  {| tx_id := uuid4 e 1;
     tx_user_id := u_id current_user;
     tx_type := "ad_reward";
     tx_amount := REWARD_AMOUNT;
     tx_description := ("Reward for watching " ++ awc_ad_type ad_data ++ " ad")%string;
     tx_created_at := isoformat (now e 1) |}.

Definition watch_ad (e : Env) (ad_data : AdWatchCreate) (current_user : User)
  : handler WatchAdResponse :=
  let reward_amount := REWARD_AMOUNT in
  let ad_watch :=
    {| aw_id := uuid4 e 0; aw_user_id := u_id current_user;
       aw_ad_type := awc_ad_type ad_data; aw_reward_amount := reward_amount;
       aw_watched_at := isoformat (now e 0) |} in
  commit (users_inc (u_id current_user) reward_amount reward_amount 1) ;;;
  let transaction := ad_transaction e ad_data current_user in
  commit (ad_watches_insert ad_watch) ;;;
  commit (transactions_insert transaction) ;;;
  ret {| war_message := "Ad watched successfully!";
         war_reward := reward_amount;
         war_new_balance := wallet_balance current_user + reward_amount |}.

Record BalanceResponse := {
  br_balance : Q;
  br_total_earned : Q;
  br_ads_watched : Z
}.

(** Subscripting [None] is a [TypeError], which the framework answers with
    status 500. *)
Definition internal_server_error {A} : handler A := raise 500 "Internal Server Error".

Definition get_wallet_balance (current_user : User) : handler BalanceResponse :=
  user <- read (find_user_by_id (u_id current_user)) ;;
  match user with
  | None => internal_server_error
  | Some user =>
      ret {| br_balance := wallet_balance user;
             br_total_earned := total_earned user;
             br_ads_watched := ads_watched user |}
  end.

Definition get_transactions (current_user : User) : handler (list WalletTransaction) :=
  read (fun d =>
    to_list 100
      (sort_desc tx_created_at
         (filter (fun t => String.eqb (tx_user_id t) (u_id current_user))
            (transactions d)))).

Definition new_withdrawal (e : Env) (withdrawal_data : WithdrawalCreate)
    (current_user : User) : WithdrawalRequest :=
  {| wd_id := uuid4 e 0;
     wd_user_id := u_id current_user;
     wd_amount := wc_amount withdrawal_data;
     wd_payment_method := wc_payment_method withdrawal_data;
     wd_payment_id := wc_payment_id withdrawal_data;
     wd_status := PENDING;
     wd_requested_at := isoformat (now e 0);
     wd_processed_at := None;
     wd_admin_notes := None |}.

(** [a < b] on amounts that are numbers.  Python's [<] is also false
    whenever one side is NaN, which a rational cannot be: that case is
    [Binary64.request_withdrawal]. *)
Definition Qltb (a b : Q) : bool :=
  match a ?= b with
  | Lt => true
  | _ => false
  end.

Definition request_withdrawal (e : Env) (withdrawal_data : WithdrawalCreate)
    (current_user : User) : handler (string * string) :=
  if Qltb (wc_amount withdrawal_data) MINIMUM_WITHDRAWAL
  then raise 400 "Minimum withdrawal amount is $10"
  else
    user <- read (find_user_by_id (u_id current_user)) ;;
    match user with
    | None => internal_server_error
    | Some user =>
        if Qltb (wallet_balance user) (wc_amount withdrawal_data)
        then raise 400 "Insufficient balance"
        else
          let withdrawal := new_withdrawal e withdrawal_data current_user in
          commit (users_inc (u_id current_user) (- wc_amount withdrawal_data) 0 0) ;;;
          commit (withdrawals_insert withdrawal) ;;;
          ret ("Withdrawal request submitted successfully", wd_id withdrawal)
    end.

Definition get_my_withdrawals (current_user : User) : handler (list WithdrawalRequest) :=
  read (fun d =>
    to_list 100
      (sort_desc wd_requested_at
         (filter (fun w => String.eqb (wd_user_id w) (u_id current_user))
            (withdrawals d)))).

(** A withdrawal joined with its owner's name and email. *)
Record WithdrawalRow := {
  row_withdrawal : WithdrawalRequest;
  row_user_name : string;
  row_user_email : string
}.

Definition join_user (d : Database) (w : WithdrawalRequest) : WithdrawalRow :=
  let user := find_user_by_id (wd_user_id w) d in
  {| row_withdrawal := w;
     row_user_name := match user with Some u => full_name u | None => "Unknown" end;
     row_user_email := match user with Some u => email u | None => "Unknown" end |}.

Definition get_all_withdrawals (admin_user : User) : handler (list WithdrawalRow) :=
  read (fun d =>
    map (join_user d) (to_list 100 (sort_desc wd_requested_at (withdrawals d)))).

(** What the framework makes of the list [get_all_withdrawals] returns.  Its
    rows are the driver's own dictionaries and carry the [_id] the driver
    gives every stored document, an ObjectId that the JSON encoder cannot
    render: with one row or more the route answers status 500.  The other
    listings rebuild pydantic models from the documents, which leaves [_id]
    out. *)
Definition encode_raw_documents {A} (rows : list A) : handler (list A) :=
  match rows with
  | [] => ret []
  | _ :: _ => raise 500 "Internal Server Error"
  end.

Definition update_withdrawal (e : Env) (withdrawal_id : string)
    (update_data : WithdrawalUpdate) (admin_user : User) : handler string :=
  withdrawal <- read (find_withdrawal withdrawal_id) ;;
  match withdrawal with
  | None => raise 404 "Withdrawal request not found"
  | Some withdrawal =>
      let processed_at := isoformat (now e 0) in
      let admin_notes := truthy (wu_admin_notes update_data) in
      (if WithdrawalStatus_eqb (wu_status update_data) REJECTED
       then commit (users_inc (wd_user_id withdrawal) (wd_amount withdrawal) 0 0)
       else ret tt) ;;;
      commit (withdrawals_set withdrawal_id (wu_status update_data)
                processed_at admin_notes) ;;;
      ret ("Withdrawal " ++ format_status e (wu_status update_data)
           ++ " successfully")%string
  end.

Record StatsResponse := {
  total_users : nat;
  total_withdrawals : nat;
  pending_withdrawals : nat;
  total_ads_watched : nat
}.

Definition get_admin_stats (admin_user : User) : handler StatsResponse :=
  read (fun d =>
    {| total_users := length (users d);
       total_withdrawals := length (withdrawals d);
       pending_withdrawals :=
         length (filter (fun w => WithdrawalStatus_eqb (wd_status w) PENDING)
                   (withdrawals d));
       total_ads_watched := length (ad_watches d) |}).

(** ** The API as a whole *)

Inductive request :=
| POST_auth_signup (user_data : UserCreate)
| POST_auth_login (login_data : UserLogin)
| GET_auth_me (c : credentials)
| POST_ads_watch (c : credentials) (ad_data : AdWatchCreate)
| GET_wallet_balance (c : credentials)
| GET_wallet_transactions (c : credentials)
| POST_withdrawals_request (c : credentials) (withdrawal_data : WithdrawalCreate)
| GET_withdrawals_my_requests (c : credentials)
| GET_admin_withdrawals (c : credentials)
| PUT_admin_withdrawals (c : credentials) (withdrawal_id : string)
    (update_data : WithdrawalUpdate)
| GET_admin_stats (c : credentials).

Inductive response :=
| resp_auth (t : token) (u : UserResponse)
| resp_me (u : UserResponse)
| resp_watch (r : WatchAdResponse)
| resp_balance (b : BalanceResponse)
| resp_transactions (l : list WalletTransaction)
| resp_request (message request_id : string)
| resp_my_withdrawals (l : list WithdrawalRequest)
| resp_all_withdrawals (l : list WithdrawalRow)
| resp_message (message : string)
| resp_stats (s : StatsResponse).

Definition fmap {A B} (f : A -> B) (h : handler A) : handler B :=
  x <- h ;; ret (f x).

Definition as_user {A} (c : credentials) (route : User -> handler A) : handler A :=
  Depends (get_current_user c) route.

Definition as_admin {A} (c : credentials) (route : User -> handler A) : handler A :=
  Depends (get_admin_user c) route.

Definition handle (e : Env) (r : request) : handler response :=
  match r with
  | POST_auth_signup b => fmap (fun p => resp_auth (fst p) (snd p)) (signup e b)
  | POST_auth_login b => fmap (fun p => resp_auth (fst p) (snd p)) (login e b)
  | GET_auth_me c => fmap resp_me (as_user c get_current_user_info)
  | POST_ads_watch c b => fmap resp_watch (as_user c (watch_ad e b))
  | GET_wallet_balance c => fmap resp_balance (as_user c get_wallet_balance)
  | GET_wallet_transactions c => fmap resp_transactions (as_user c get_transactions)
  | POST_withdrawals_request c b =>
      fmap (fun p => resp_request (fst p) (snd p)) (as_user c (request_withdrawal e b))
  | GET_withdrawals_my_requests c =>
      fmap resp_my_withdrawals (as_user c get_my_withdrawals)
  | GET_admin_withdrawals c =>
      fmap resp_all_withdrawals
        (rows <- as_admin c get_all_withdrawals ;; encode_raw_documents rows)
  | PUT_admin_withdrawals c wid b =>
      fmap resp_message (as_admin c (update_withdrawal e wid b))
  | GET_admin_stats c => fmap resp_stats (as_admin c get_admin_stats)
  end.

(** The state after a request has been served. *)
Definition step (e : Env) (r : request) (d : Database) : Database :=
  snd (run (handle e r) d).

(** ** The arithmetic of the wallet on binary64

    The comparisons and the [$inc] of the withdrawal routes on the floats
    Python and the store compute with: a comparison with NaN is false and a
    sum is rounded. *)

Module Binary64.

Inductive verdict :=
| below_minimum                       (* 400 "Minimum withdrawal amount is $10" *)
| insufficient_balance                (* 400 "Insufficient balance" *)
| accepted (wallet_balance : float).  (* the wallet after the debit *)

(** [request_withdrawal] on the stored balance and the amount asked: the
    two guards, then [{"$inc": {"wallet_balance": -amount}}]. *)
Definition request_withdrawal (wallet_balance amount : float) : verdict :=
  if (amount <? 10)%float then below_minimum
  else if (wallet_balance <? amount)%float then insufficient_balance
  else accepted (wallet_balance + - amount)%float.

(** The refund of [update_withdrawal]:
    [{"$inc": {"wallet_balance": withdrawal["amount"]}}]. *)
Definition refund (wallet_balance amount : float) : float :=
  (wallet_balance + amount)%float.

(** [wallet_balance >= 0] *)
Definition nonneg (wallet_balance : float) : bool := (0 <=? wallet_balance)%float.

End Binary64.

(** ** Documents on their way to and from the store

    What [model.dict()] gives and what the driver hands back: a dictionary
    from field names to values, in field order. *)

#[warnings="-register-all"]
Inductive value :=
| VNone
| VBool (b : bool)
| VInt (z : Z)
| VFloat (q : Q)
| VStr (s : string)
| VDatetime (t : datetime)
| VDict (items : list (string * value)).

(** [data[key] = value.isoformat()] for the values that are datetimes. *)
Definition prepare_item (item : string * value) : string * value :=
  match snd item with
  | VDatetime t => (fst item, VStr (isoformat t))
  | _ => item
  end.

Definition prepare_for_mongo (data : value) : value :=
  match data with
  | VDict items => VDict (map prepare_item items)
  | other => other
  end.

(** [s.replace('Z', '+00:00')] *)
Fixpoint replace_Z (s : string) : string :=
  match s with
  | EmptyString => EmptyString
  | String c s' =>
      if Ascii.eqb c "Z" then ("+00:00" ++ replace_Z s')%string
      else String c (replace_Z s')
  end.

(** [datetime.fromisoformat] is the library's; [None] stands for its
    [ValueError], which [parse_from_mongo] lets through.  The keys of a
    dictionary being distinct, at most one item has the key. *)
Fixpoint parse_items (fromisoformat : string -> option datetime)
    (items : list (string * value)) : option (list (string * value)) :=
  match items with
  | [] => Some []
  | (key, v) :: rest =>
      match
        (if String.eqb key "created_at" then
           match v with
           | VStr s => option_map VDatetime (fromisoformat (replace_Z s))
           | _ => Some v
           end
         else Some v),
        parse_items fromisoformat rest
      with
      | Some v', Some rest' => Some ((key, v') :: rest')
      | _, _ => None
      end
  end.

Definition parse_from_mongo (fromisoformat : string -> option datetime)
    (item : value) : option value :=
  match item with
  | VDict items => option_map VDict (parse_items fromisoformat items)
  | other => Some other
  end.

(** ** A small deployment used to exercise the statements

    Alice referred Bob and has 12.5 in her wallet; Bob has nothing; Root is
    an administrator.  Two withdrawals of Bob's are on file, one approved
    and one still pending. *)

Module Scenario.

Definition clock (k : nat) : datetime :=
  {| year := 2024; month := 3; day := 9;
     hour := 7; minute := 5; second := 30 + N.of_nat k; microsecond := 0 |}.

Definition env : Env :=
  {| uuid4 := fun k =>
       match k with
       | O => "3f2c9a1e-aaaa"
       | S O => "7b1d44c0-bbbb"
       | _ => "c0ffee00-cccc"
       end;
     now := clock;
     hash_password := fun p => ("$2b$" ++ p)%string;
     verify_password := fun p h => String.eqb ("$2b$" ++ p)%string h;
     format_status := WithdrawalStatus_value |}.

Definition alice : User :=
  {| u_id := "alice-id"; email := "alice@example.com";
     password_hash := "$2b$alice"; full_name := "Alice";
     wallet_balance := 25 # 2; total_earned := 25 # 2; ads_watched := 15;
     referral_code := "A1B2C3D4"; referred_by := None; is_admin := false;
     u_created_at := "2024-03-01T10:00:00+00:00" |}.

Definition bob : User :=
  {| u_id := "bob-id"; email := "bob@example.com";
     password_hash := "$2b$bob"; full_name := "Bob";
     wallet_balance := 0; total_earned := 20; ads_watched := 40;
     referral_code := "E5F6A7B8"; referred_by := Some "alice-id";
     is_admin := false;
     u_created_at := "2024-03-02T10:00:00+00:00" |}.

Definition root : User :=
  {| u_id := "root-id"; email := "root@example.com";
     password_hash := "$2b$root"; full_name := "Root";
     wallet_balance := 0; total_earned := 0; ads_watched := 0;
     referral_code := "FFFF0000"; referred_by := None; is_admin := true;
     u_created_at := "2024-02-01T10:00:00+00:00" |}.

Definition paid : WithdrawalRequest :=
  {| wd_id := "wd-1"; wd_user_id := "bob-id"; wd_amount := 10;
     wd_payment_method := ESEWA; wd_payment_id := "9800000000";
     wd_status := APPROVED;
     wd_requested_at := "2024-03-05T09:00:00+00:00";
     wd_processed_at := Some "2024-03-06T09:00:00+00:00";
     wd_admin_notes := Some "paid" |}.

Definition waiting : WithdrawalRequest :=
  {| wd_id := "wd-2"; wd_user_id := "bob-id"; wd_amount := 10;
     wd_payment_method := KHALTI; wd_payment_id := "9811111111";
     wd_status := PENDING;
     wd_requested_at := "2024-03-08T09:00:00.250000+00:00";
     wd_processed_at := None;
     wd_admin_notes := None |}.

Definition bonus : WalletTransaction :=
  {| tx_id := "tx-1"; tx_user_id := "alice-id"; tx_type := "referral_bonus";
     tx_amount := 5; tx_description := "Referral bonus for inviting Bob";
     tx_created_at := "2024-03-02T10:00:00.000100+00:00" |}.

Definition db : Database :=
  {| users := [alice; bob; root];
     ad_watches := [];
     transactions := [bonus];
     withdrawals := [paid; waiting] |}.

Definition as_alice : credentials := Payload (Some "alice-id").
Definition as_bob : credentials := Payload (Some "bob-id").
Definition as_root : credentials := Payload (Some "root-id").

Definition withdraw (amount : Q) : WithdrawalCreate :=
  {| wc_amount := amount; wc_payment_method := ESEWA;
     wc_payment_id := "9800000000" |}.

Definition video : AdWatchCreate := {| awc_ad_type := "video" |}.

Definition decide (st : WithdrawalStatus) : WithdrawalUpdate :=
  {| wu_status := st; wu_admin_notes := None |}.

Definition carol (code : option string) : UserCreate :=
  {| uc_email := "carol@example.com"; uc_password := "carol";
     uc_full_name := "Carol"; uc_referral_code := code |}.

(** Alice's wallet after 150 ad watches, one per second. *)
Definition tick (k : nat) : datetime :=
  {| year := 2024; month := 3; day := 9; hour := 8;
     minute := N.of_nat k / 60; second := N.of_nat k mod 60;
     microsecond := 500000 |}.

Definition reward (k : nat) : WalletTransaction :=
  {| tx_id := "tx"; tx_user_id := "alice-id"; tx_type := "ad_reward";
     tx_amount := 1 # 2; tx_description := "Reward for watching video ad";
     tx_created_at := isoformat (tick k) |}.

Definition db_busy : Database :=
  {| users := [alice; bob; root];
     ad_watches := [];
     transactions := map reward (seq 0 150);
     withdrawals := [] |}.

(** A transaction as [transaction.dict()] gives it. *)
Definition bonus_dict : value :=
  VDict [("id", VStr "tx-1"); ("user_id", VStr "alice-id");
         ("type", VStr "referral_bonus"); ("amount", VFloat 5);
         ("description", VStr "Referral bonus for inviting Bob");
         ("created_at", VDatetime (clock 0))].

(** A library that reads back the one timestamp of this scenario. *)
Definition fromisoformat (s : string) : option datetime :=
  if String.eqb s (isoformat (clock 0)) then Some (clock 0) else None.

(** The environment of a later request: other identifiers, a later clock. *)
Definition env' : Env :=
  {| uuid4 := fun k =>
       match k with
       | O => "d4e5f6a7-dddd"
       | S O => "0a1b2c3d-eeee"
       | _ => "feedbeef-ffff"
       end;
     now := fun k => clock (10 + k);
     hash_password := hash_password env;
     verify_password := verify_password env;
     format_status := fun st =>
       match st with
       | PENDING => "WithdrawalStatus.PENDING"
       | APPROVED => "WithdrawalStatus.APPROVED"
       | REJECTED => "WithdrawalStatus.REJECTED"
       end |}.

End Scenario.

(** ** Vocabulary of the statements *)

(** The writes a request can make on a database, by kind of request.  Every
    handler falls in one of these cases ([handle_journal] below). *)
Inductive journal (e : Env) (d : Database) : request -> list write -> Prop :=
| journal_nothing r :
    journal e d r []
| journal_signup user_data :
    find_user_by_email (uc_email user_data) d = None ->
    resolve_referral (uc_referral_code user_data) d = None ->
    journal e d (POST_auth_signup user_data)
      [users_insert (new_user e user_data)]
| journal_signup_referred user_data referrer :
    find_user_by_email (uc_email user_data) d = None ->
    resolve_referral (uc_referral_code user_data) d = Some referrer ->
    let user := set_referred_by (u_id referrer) (new_user e user_data) in
    journal e d (POST_auth_signup user_data)
      [users_inc (u_id referrer) REFERRAL_BONUS REFERRAL_BONUS 0;
       transactions_insert (referral_transaction e referrer user);
       users_insert user]
| journal_watch_ad c ad_data u :
    get_current_user c d = (Return u, []) ->
    journal e d (POST_ads_watch c ad_data)
      [users_inc (u_id u) REWARD_AMOUNT REWARD_AMOUNT 1;
       ad_watches_insert
         {| aw_id := uuid4 e 0; aw_user_id := u_id u;
            aw_ad_type := awc_ad_type ad_data;
            aw_reward_amount := REWARD_AMOUNT;
            aw_watched_at := isoformat (now e 0) |};
       transactions_insert (ad_transaction e ad_data u)]
| journal_request_withdrawal c withdrawal_data u :
    get_current_user c d = (Return u, []) ->
    MINIMUM_WITHDRAWAL <= wc_amount withdrawal_data ->
    wc_amount withdrawal_data <= wallet_balance u ->
    journal e d (POST_withdrawals_request c withdrawal_data)
      [users_inc (u_id u) (- wc_amount withdrawal_data) 0 0;
       withdrawals_insert (new_withdrawal e withdrawal_data u)]
| journal_update_withdrawal c wid update_data admin w :
    get_admin_user c d = (Return admin, []) ->
    find_withdrawal wid d = Some w ->
    journal e d (PUT_admin_withdrawals c wid update_data)
      ((if WithdrawalStatus_eqb (wu_status update_data) REJECTED
        then [users_inc (wd_user_id w) (wd_amount w) 0 0] else [])
       ++ [withdrawals_set wid (wu_status update_data) (isoformat (now e 0))
             (truthy (wu_admin_notes update_data))]).

(** Every wallet holds a non-negative balance. *)
Definition balances_nonneg (d : Database) : Prop :=
  Forall (fun u => 0 <= wallet_balance u) (users d).

(** Every withdrawal on file is for a non-negative amount. *)
Definition amounts_nonneg (d : Database) : Prop :=
  Forall (fun w => 0 <= wd_amount w) (withdrawals d).

(** The databases the API can build, starting from an empty one. *)
Inductive reachable : Database -> Prop :=
| reachable_empty : reachable empty_db
| reachable_step e r d : reachable d -> reachable (step e r d).

(** [a] is at least as recent as [b], by the stored timestamps. *)
Definition not_older {A : Type} (key : A -> string) (a b : A) : Prop :=
  String.leb (key b) (key a) = true.

(** [result] is the first page of [source] by decreasing [key]: at most 100
    documents, all of [source] when it has no more than 100, in descending
    order of [key], taken from [source], and no document left out is more
    recent than one that is listed. *)
Definition first_page {A : Type} (key : A -> string) (source result : list A)
  : Prop :=
  (length result <= 100)%nat
  /\ length result = Nat.min 100 (length source)
  /\ StronglySorted (not_older key) result
  /\ exists rest,
       Permutation (result ++ rest) source
       /\ forall x y, In x result -> In y rest -> not_older key x y.

(** Chronological order of two instants, field by field. *)
Definition lex (c1 c2 : comparison) : comparison :=
  match c1 with
  | Eq => c2
  | _ => c1
  end.

Definition datetime_compare (a b : datetime) : comparison :=
  lex (year a ?= year b)%N
    (lex (month a ?= month b)%N
       (lex (day a ?= day b)%N
          (lex (hour a ?= hour b)%N
             (lex (minute a ?= minute b)%N
                (lex (second a ?= second b)%N
                   (microsecond a ?= microsecond b)%N))))).

(** The ranges of the fields of a Python [datetime]. *)
Definition valid_datetime (t : datetime) : Prop :=
  (1 <= year t <= 9999 /\ 1 <= month t <= 12 /\ 1 <= day t <= 31
   /\ hour t < 24 /\ minute t < 60 /\ second t < 60
   /\ microsecond t < 1000000)%N.

(** The bearer token a request carries, for the routes that ask for one. *)
Definition credentials_of (r : request) : option credentials :=
  match r with
  | POST_auth_signup _ | POST_auth_login _ => None
  | GET_auth_me c | POST_ads_watch c _ | GET_wallet_balance c
  | GET_wallet_transactions c | POST_withdrawals_request c _
  | GET_withdrawals_my_requests c | GET_admin_withdrawals c
  | PUT_admin_withdrawals c _ _ | GET_admin_stats c => Some c
  end.

(** The routes behind [Depends(get_admin_user)]. *)
Definition is_admin_route (r : request) : bool :=
  match r with
  | GET_admin_withdrawals _ | PUT_admin_withdrawals _ _ _ | GET_admin_stats _ => true
  | _ => false
  end.

(** The routes that only look things up. *)
Definition is_lookup (r : request) : bool :=
  match r with
  | POST_auth_login _ | GET_auth_me _ | GET_wallet_balance _
  | GET_wallet_transactions _ | GET_withdrawals_my_requests _
  | GET_admin_withdrawals _ | GET_admin_stats _ => true
  | _ => false
  end.

(** The user document a signup stores when it goes through. *)
Definition signed_up (e : Env) (user_data : UserCreate) (d : Database) : User :=
  match resolve_referral (uc_referral_code user_data) d with
  | Some referrer => set_referred_by (u_id referrer) (new_user e user_data)
  | None => new_user e user_data
  end.

(** No two stored users share an email. *)
Definition emails_unique (d : Database) : Prop := NoDup (map email (users d)).

(** What of a user no route writes: everything but the wallet and the two
    counters. *)
Definition same_identity (u u' : User) : Prop :=
  u_id u' = u_id u /\ email u' = email u
  /\ password_hash u' = password_hash u /\ full_name u' = full_name u
  /\ referral_code u' = referral_code u /\ referred_by u' = referred_by u
  /\ is_admin u' = is_admin u /\ u_created_at u' = u_created_at u.

(** No stored user is an administrator. *)
Definition no_admin (d : Database) : Prop :=
  Forall (fun u => is_admin u = false) (users d).

(** What of a withdrawal no route writes once it is filed. *)
Definition same_request (w w' : WithdrawalRequest) : Prop :=
  wd_id w' = wd_id w /\ wd_user_id w' = wd_user_id w
  /\ wd_amount w' = wd_amount w
  /\ wd_payment_method w' = wd_payment_method w
  /\ wd_payment_id w' = wd_payment_id w
  /\ wd_requested_at w' = wd_requested_at w.

(** No withdrawal on file is for an amount below the minimum, and one that
    was never processed is pending. *)
Definition filed_well (d : Database) : Prop :=
  Forall (fun w => ~ wd_amount w < MINIMUM_WITHDRAWAL
                   /\ (wd_processed_at w = None -> wd_status w = PENDING))
    (withdrawals d).

(** Every withdrawal on file belongs to a stored user. *)
Definition owners_on_file (d : Database) : Prop :=
  Forall (fun w => find_user_by_id (wd_user_id w) d <> None) (withdrawals d).

(** Totals over the collections. *)
Definition Qsum (l : list Q) : Q := fold_right Qplus 0 l.

Definition earned (d : Database) : Q := Qsum (map total_earned (users d)).

Definition credited (d : Database) : Q := Qsum (map tx_amount (transactions d)).

Definition watched (d : Database) : Z :=
  fold_right Z.add 0%Z (map ads_watched (users d)).

(** Requests served one after the other, each in its environment. *)
Definition serve (requests : list (Env * request)) (d : Database) : Database :=
  fold_left (fun d0 er => step (fst er) (snd er) d0) requests d.

(** * Properties *)

(** ** Lists and lookups *)

Section Lookup.
Context {A : Type}.
Implicit Types (p q : A -> bool) (f : A -> A) (l : list A).

Lemma find_update_first p f l x :
  find p l = Some x -> p (f x) = true ->
  find p (update_first p f l) = Some (f x).
Proof.
  intros Hfind Hp. induction l as [|y l IH]; simpl in *; [discriminate|].
  destruct (p y) eqn:Hy.
  - injection Hfind as ->. simpl. now rewrite Hp.
  - simpl. rewrite Hy. auto.
Qed.


Lemma find_update_first_other p q f l :
  (forall x, p x = true -> q x = false /\ q (f x) = false) ->
  find q (update_first p f l) = find q l.
Proof.
  intros Hpq. induction l as [|y l IH]; simpl; [reflexivity|].
  destruct (p y) eqn:Hy; simpl.
  - destruct (Hpq y Hy) as [-> ->]. reflexivity.
  - now rewrite IH.
Qed.

Lemma find_app_l p l l' x :
  find p l = Some x -> find p (l ++ l') = Some x.
Proof.
  induction l as [|y l IH]; simpl; [discriminate|].
  destruct (p y); auto.
Qed.

End Lookup.

Lemma has_id_inc_user uid db de da u :
  has_id uid (inc_user db de da u) = has_id uid u.
Proof. reflexivity. Qed.

Lemma find_user_by_id_id uid d u : find_user_by_id uid d = Some u -> u_id u = uid.
Proof.
  unfold find_user_by_id. intros H. apply find_some in H as [_ H].
  now apply String.eqb_eq in H.
Qed.

(** After [$inc] on [uid], the user [uid] designates carries the increments. *)
Lemma find_user_after_inc uid db de da d u :
  find_user_by_id uid d = Some u ->
  find_user_by_id uid (apply_write d (users_inc uid db de da))
    = Some (inc_user db de da u).
Proof.
  unfold find_user_by_id. simpl. intros H.
  apply find_update_first; [assumption|].
  rewrite has_id_inc_user. now apply find_some in H as [_ H].
Qed.

(** ... and every other user is as before. *)
Lemma find_other_user_after_inc uid uid' db de da d :
  uid' <> uid ->
  find_user_by_id uid' (apply_write d (users_inc uid db de da))
    = find_user_by_id uid' d.
Proof.
  unfold find_user_by_id. simpl. intros Hne.
  apply find_update_first_other. intros x Hx.
  unfold has_id in *. apply String.eqb_eq in Hx. simpl. rewrite Hx.
  split; apply String.eqb_neq; congruence.
Qed.

(** ** Authentication *)

Lemma get_current_user_reads c d : snd (get_current_user c d) = [].
Proof.
  destruct c as [| |[uid|]]; try reflexivity.
  unfold get_current_user, bind, read. simpl.
  destruct (find_user_by_id uid d); reflexivity.
Qed.

Lemma get_current_user_inv c d u ws :
  get_current_user c d = (Return u, ws) ->
  ws = [] /\ c = Payload (Some (u_id u)) /\ find_user_by_id (u_id u) d = Some u.
Proof.
  destruct c as [| |[uid|]]; try discriminate.
  unfold get_current_user, bind, read. simpl.
  destruct (find_user_by_id uid d) as [u0|] eqn:Hf; simpl; [|discriminate].
  intros H. injection H as <- <-.
  pose proof (find_user_by_id_id _ _ _ Hf) as ->. auto.
Qed.

(** A route behind a dependency that succeeded runs on the same database. *)
Lemma Depends_ok {A} (dep : handler User) (route : User -> handler A) d u :
  dep d = (Return u, []) -> Depends dep route d = route u d.
Proof.
  intros H. unfold Depends, bind. rewrite H. simpl.
  destruct (route u d). reflexivity.
Qed.

Lemma Qltb_lt a b : Qltb a b = true <-> a < b.
Proof.
  unfold Qltb. rewrite Qlt_alt. destruct (a ?= b); split; congruence.
Qed.

Lemma Qltb_ge a b : Qltb a b = false <-> b <= a.
Proof.
  rewrite <- Bool.not_true_iff_false, Qltb_lt. split.
  - apply Qnot_lt_le.
  - apply Qle_not_lt.
Qed.

(** ** Withdrawal requests *)

(** C1.  A withdrawal request of an authenticated caller is refused with
    status 400 "Minimum withdrawal amount is $10" when the amount is below
    10, whatever the balance; when the amount is at least 10 and above the
    caller's balance it is refused with status 400 "Insufficient balance".
    In both cases the handler writes nothing: the database it leaves is the
    one it started on, so no balance moved and no withdrawal was filed. *)
Theorem request_withdrawal_refused e c body d u :
  get_current_user c d = (Return u, []) ->
  let route := as_user c (request_withdrawal e body) in
  (wc_amount body < 10 ->
     route d = (Raise {| status_code := 400;
                         detail := "Minimum withdrawal amount is $10" |}, [])
     /\ snd (run route d) = d)
  /\
  (~ wc_amount body < 10 -> wallet_balance u < wc_amount body ->
     route d = (Raise {| status_code := 400;
                         detail := "Insufficient balance" |}, [])
     /\ snd (run route d) = d).
Proof.
  intros Hauth route.
  assert (Hroute : route d = request_withdrawal e body u d)
    by (apply Depends_ok; exact Hauth).
  apply get_current_user_inv in Hauth as (_ & _ & Hfind).
  unfold run. rewrite Hroute. unfold request_withdrawal. split.
  - intros Hlt. apply Qltb_lt in Hlt. unfold MINIMUM_WITHDRAWAL.
    rewrite Hlt. split; reflexivity.
  - intros Hmin Hbal.
    assert (Hge : Qltb (wc_amount body) MINIMUM_WITHDRAWAL = false)
      by (apply Qltb_ge, Qnot_lt_le, Hmin).
    rewrite Hge. apply Qltb_lt in Hbal.
    unfold bind, read. simpl. rewrite Hfind. simpl. rewrite Hbal.
    split; reflexivity.
Qed.

Lemma request_withdrawal_refused_witness :
  (let route := as_user Scenario.as_bob
                  (request_withdrawal Scenario.env (Scenario.withdraw 5)) in
   route Scenario.db
     = (Raise {| status_code := 400;
                 detail := "Minimum withdrawal amount is $10" |}, [])
   /\ snd (run route Scenario.db) = Scenario.db)
  /\
  (let route := as_user Scenario.as_alice
                  (request_withdrawal Scenario.env (Scenario.withdraw 20)) in
   route Scenario.db
     = (Raise {| status_code := 400; detail := "Insufficient balance" |}, [])
   /\ snd (run route Scenario.db) = Scenario.db).
Proof.
  split.
  - apply (request_withdrawal_refused Scenario.env Scenario.as_bob
             (Scenario.withdraw 5) Scenario.db Scenario.bob);
      reflexivity.
  - apply (request_withdrawal_refused Scenario.env Scenario.as_alice
             (Scenario.withdraw 20) Scenario.db Scenario.alice).
    + reflexivity.
    + simpl. unfold Qlt. simpl. lia.
    + simpl. unfold Qlt. simpl. lia.
Defined.

(** C2.  A withdrawal request of an authenticated caller for an amount of
    at least 10 and at most the caller's balance succeeds.  The caller's
    wallet_balance is lowered by exactly the amount (nothing else of the
    caller and no other user changes), exactly one withdrawal is filed, in
    status pending, with the caller's id, the amount, the payment method and
    the payment id, and the answer carries the id of that withdrawal. *)
Theorem request_withdrawal_accepted e c body d u :
  get_current_user c d = (Return u, []) ->
  10 <= wc_amount body ->
  wc_amount body <= wallet_balance u ->
  exists request_id d' u' w,
    run (as_user c (request_withdrawal e body)) d
      = (Return ("Withdrawal request submitted successfully", request_id), d')
    /\ find_user_by_id (u_id u) d' = Some u'
    /\ wallet_balance u' == wallet_balance u - wc_amount body
    /\ total_earned u' == total_earned u
    /\ ads_watched u' = ads_watched u
    /\ (forall uid, uid <> u_id u ->
          find_user_by_id uid d' = find_user_by_id uid d)
    /\ withdrawals d' = withdrawals d ++ [w]
    /\ wd_id w = request_id
    /\ wd_status w = PENDING
    /\ wd_user_id w = u_id u
    /\ wd_amount w = wc_amount body
    /\ wd_payment_method w = wc_payment_method body
    /\ wd_payment_id w = wc_payment_id body.
Proof.
  intros Hauth Hmin Hbal.
  pose proof (Depends_ok _ (request_withdrawal e body) _ _ Hauth) as Hroute.
  apply get_current_user_inv in Hauth as (_ & _ & Hfind).
  apply Qltb_ge in Hmin, Hbal.
  set (w := new_withdrawal e body u).
  set (d1 := apply_write d (users_inc (u_id u) (- wc_amount body) 0 0)).
  exists (wd_id w), (apply_write d1 (withdrawals_insert w)),
    (inc_user (- wc_amount body) 0 0 u), w.
  split.
  { unfold run, as_user. rewrite Hroute. unfold request_withdrawal.
    unfold MINIMUM_WITHDRAWAL in *. rewrite Hmin.
    unfold bind, read. simpl. rewrite Hfind. simpl. rewrite Hbal.
    reflexivity. }
  split.
  { change (find_user_by_id (u_id u) d1 = Some (inc_user (- wc_amount body) 0 0 u)).
    now apply find_user_after_inc. }
  split; [reflexivity|].
  split; [simpl; apply Qplus_0_r|].
  split; [simpl; apply Z.add_0_r|].
  split.
  { intros uid Hne.
    change (find_user_by_id uid d1 = find_user_by_id uid d).
    now apply find_other_user_after_inc. }
  repeat split.
Qed.

Lemma request_withdrawal_accepted_witness :
  exists request_id d' u' w,
    run (as_user Scenario.as_alice
           (request_withdrawal Scenario.env (Scenario.withdraw 12))) Scenario.db
      = (Return ("Withdrawal request submitted successfully", request_id), d')
    /\ find_user_by_id (u_id Scenario.alice) d' = Some u'
    /\ wallet_balance u' == wallet_balance Scenario.alice - 12
    /\ total_earned u' == total_earned Scenario.alice
    /\ ads_watched u' = ads_watched Scenario.alice
    /\ (forall uid, uid <> u_id Scenario.alice ->
          find_user_by_id uid d' = find_user_by_id uid Scenario.db)
    /\ withdrawals d' = withdrawals Scenario.db ++ [w]
    /\ wd_id w = request_id
    /\ wd_status w = PENDING
    /\ wd_user_id w = u_id Scenario.alice
    /\ wd_amount w = 12
    /\ wd_payment_method w = ESEWA
    /\ wd_payment_id w = "9800000000".
Proof.
  apply (request_withdrawal_accepted Scenario.env Scenario.as_alice
           (Scenario.withdraw 12) Scenario.db Scenario.alice).
  - reflexivity.
  - simpl. unfold Qle. simpl. lia.
  - simpl. unfold Qle. simpl. lia.
Defined.

(** ** Ad rewards *)



(** C10.  The new_balance an ad watch answers with is the wallet_balance of
    the user record it was handed plus 0.5, on whatever database the route
    runs: it is not read back from the store.  When the record is the one
    authentication resolved on the same database, the answer equals the
    balance stored once the call has completed. *)
Theorem watch_ad_new_balance e c ad_data d u :
  (forall current_user d0,
      exists resp,
        fst (watch_ad e ad_data current_user d0) = Return resp
        /\ war_new_balance resp = wallet_balance current_user + (1 # 2))
  /\
  (get_current_user c d = (Return u, []) ->
   exists resp d' u',
     run (as_user c (watch_ad e ad_data)) d = (Return resp, d')
     /\ war_new_balance resp = wallet_balance u + (1 # 2)
     /\ find_user_by_id (u_id u) d' = Some u'
     /\ wallet_balance u' = war_new_balance resp).
Proof.
  split.
  - intros current_user d0. eexists. split; reflexivity.
  - intros Hauth.
    pose proof (Depends_ok _ (watch_ad e ad_data) _ _ Hauth) as Hroute.
    apply get_current_user_inv in Hauth as (_ & _ & Hfind).
    set (d1 := apply_write d (users_inc (u_id u) REWARD_AMOUNT REWARD_AMOUNT 1)).
    eexists _, _, (inc_user REWARD_AMOUNT REWARD_AMOUNT 1 u).
    split.
    { unfold run, as_user. rewrite Hroute. reflexivity. }
    split; [reflexivity|].
    split; [|reflexivity].
    change (find_user_by_id (u_id u) d1
            = Some (inc_user REWARD_AMOUNT REWARD_AMOUNT 1 u)).
    now apply find_user_after_inc.
Qed.

Lemma watch_ad_new_balance_witness :
  exists resp d' u',
    run (as_user Scenario.as_alice (watch_ad Scenario.env Scenario.video))
        Scenario.db = (Return resp, d')
    /\ war_new_balance resp = wallet_balance Scenario.alice + (1 # 2)
    /\ find_user_by_id (u_id Scenario.alice) d' = Some u'
    /\ wallet_balance u' = war_new_balance resp.
Proof.
  apply (watch_ad_new_balance Scenario.env Scenario.as_alice Scenario.video
           Scenario.db Scenario.alice).
  reflexivity.
Defined.

(** ** Processing a withdrawal *)

Lemma has_wd_id_set wid st at_ notes w :
  has_wd_id wid (set_withdrawal st at_ notes w) = has_wd_id wid w.
Proof. reflexivity. Qed.

Lemma find_withdrawal_after_set wid st at_ notes d w :
  find_withdrawal wid d = Some w ->
  find_withdrawal wid (apply_write d (withdrawals_set wid st at_ notes))
    = Some (set_withdrawal st at_ notes w).
Proof.
  unfold find_withdrawal. simpl. intros H.
  apply find_update_first; [assumption|].
  rewrite has_wd_id_set. now apply find_some in H as [_ H].
Qed.

Lemma get_admin_user_route {A} c d admin (route : User -> handler A) :
  get_admin_user c d = (Return admin, []) ->
  as_admin c route d = route admin d.
Proof. intros H. now apply Depends_ok. Qed.

(** What [update_withdrawal] writes, in order, for a request on file: the
    refund when the new status is rejected, then the new status.  The status
    already on file plays no part. *)
Lemma update_withdrawal_writes e wid upd admin d w :
  find_withdrawal wid d = Some w ->
  update_withdrawal e wid upd admin d
  = (Return ("Withdrawal " ++ format_status e (wu_status upd)
             ++ " successfully")%string,
     (if WithdrawalStatus_eqb (wu_status upd) REJECTED
      then [users_inc (wd_user_id w) (wd_amount w) 0 0] else [])
     ++ [withdrawals_set wid (wu_status upd) (isoformat (now e 0))
           (truthy (wu_admin_notes upd))]).
Proof.
  intros Hfind. unfold update_withdrawal, bind, read. simpl. rewrite Hfind.
  destruct (WithdrawalStatus_eqb (wu_status upd) REJECTED); reflexivity.
Qed.



(** C4, as the specification words it, does not hold: a request that is
    already approved can be processed again with the new status rejected;
    the call is accepted, the status leaves the terminal state it was in and
    the owner is credited. *)
Lemma update_withdrawal_terminal_not_final :
  ~ (forall e c wid upd d admin w,
        get_admin_user c d = (Return admin, []) ->
        find_withdrawal wid d = Some w ->
        wd_status w = APPROVED \/ wd_status w = REJECTED ->
        let route := as_admin c (update_withdrawal e wid upd) in
        let d' := snd (run route d) in
        (* the status is not changed to a different value *)
        (forall w', find_withdrawal wid d' = Some w' -> wd_status w' = wd_status w)
        (* no balance changes *)
        /\ (forall uid u u',
              find_user_by_id uid d = Some u -> find_user_by_id uid d' = Some u' ->
              wallet_balance u' == wallet_balance u)
        (* a different new status is not accepted *)
        /\ (wu_status upd <> wd_status w -> exists err, fst (route d) = Raise err)).
Proof.
  intros H.
  specialize (H Scenario.env Scenario.as_root "wd-1" (Scenario.decide REJECTED)
                Scenario.db Scenario.root Scenario.paid
                eq_refl eq_refl (or_introl eq_refl)).
  destruct H as (Hstatus & _ & _).
  specialize (Hstatus _ eq_refl). discriminate Hstatus.
Qed.

(** C4, amended.  Processing does not depend on the status on file.  On a
    request that is already approved or rejected the call is accepted and
    the request takes the new status, whichever it is.  No balance changes
    when the new status is not rejected; when it is rejected the owner is
    credited with the recorded amount, also if the request was rejected
    already. *)
Theorem update_withdrawal_on_terminal e c wid upd d admin w :
  get_admin_user c d = (Return admin, []) ->
  find_withdrawal wid d = Some w ->
  wd_status w = APPROVED \/ wd_status w = REJECTED ->
  exists msg d' w',
    run (as_admin c (update_withdrawal e wid upd)) d = (Return msg, d')
    /\ find_withdrawal wid d' = Some w'
    /\ wd_status w' = wu_status upd
    /\ (wu_status upd <> REJECTED -> users d' = users d)
    /\ (wu_status upd = REJECTED ->
        forall owner,
          find_user_by_id (wd_user_id w) d = Some owner ->
          exists owner',
            find_user_by_id (wd_user_id w) d' = Some owner'
            /\ wallet_balance owner' == wallet_balance owner + wd_amount w).
Proof.
  intros Hadmin Hfind _.
  pose proof (get_admin_user_route _ _ _ (update_withdrawal e wid upd) Hadmin)
    as Hroute.
  rewrite (update_withdrawal_writes _ _ _ _ _ _ Hfind) in Hroute.
  eexists _, _, (set_withdrawal (wu_status upd) (isoformat (now e 0))
                   (truthy (wu_admin_notes upd)) w).
  split; [unfold run; rewrite Hroute; reflexivity|].
  split.
  { unfold replay. rewrite fold_left_app. simpl.
    apply find_withdrawal_after_set.
    destruct (WithdrawalStatus_eqb (wu_status upd) REJECTED); exact Hfind. }
  split; [reflexivity|].
  split.
  - intros Hnot. destruct (wu_status upd); try reflexivity. congruence.
  - intros -> owner Howner. simpl.
    exists (inc_user (wd_amount w) 0 0 owner).
    split; [exact (find_user_after_inc _ _ _ _ _ _ Howner)|reflexivity].
Qed.

Lemma update_withdrawal_on_terminal_witness :
  (* approved, then rejected: the status moves and Bob is credited *)
  (exists msg d' w',
     run (as_admin Scenario.as_root
            (update_withdrawal Scenario.env "wd-1" (Scenario.decide REJECTED)))
         Scenario.db = (Return msg, d')
     /\ find_withdrawal "wd-1" d' = Some w'
     /\ wd_status w' = REJECTED
     /\ (REJECTED <> REJECTED -> users d' = users Scenario.db)
     /\ (REJECTED = REJECTED ->
         forall owner,
           find_user_by_id "bob-id" Scenario.db = Some owner ->
           exists owner',
             find_user_by_id "bob-id" d' = Some owner'
             /\ wallet_balance owner' == wallet_balance owner + 10)).
Proof.
  apply (update_withdrawal_on_terminal Scenario.env Scenario.as_root "wd-1"
           (Scenario.decide REJECTED) Scenario.db Scenario.root Scenario.paid).
  - reflexivity.
  - reflexivity.
  - left. reflexivity.
Defined.

(** ** Signup and the referral bonus *)


Lemma find_user_by_id_exists (d : Database) (r : User) :
  In r (users d) -> exists holder, find_user_by_id (u_id r) d = Some holder.
Proof.
  intros Hin. unfold find_user_by_id.
  destruct (find (has_id (u_id r)) (users d)) as [h|] eqn:Hf; [now exists h|].
  exfalso. pose proof (find_none _ _ Hf r Hin) as Hno.
  unfold has_id in Hno. now rewrite String.eqb_refl in Hno.
Qed.



(** ** What a request writes *)

Lemma step_replay e r d : step e r d = replay d (snd (handle e r d)).
Proof. unfold step, run. destruct (handle e r d). reflexivity. Qed.

Lemma snd_fmap {A B} (f : A -> B) (h : handler A) d :
  snd (fmap f h d) = snd (h d).
Proof.
  unfold fmap, bind, ret. destruct (h d) as [[a|x] ws]; simpl; auto.
  apply app_nil_r.
Qed.

Lemma Depends_cases {A} (dep : handler User) (route : User -> handler A) d :
  snd (dep d) = [] ->
  (exists u, dep d = (Return u, []) /\ Depends dep route d = route u d)
  \/ snd (Depends dep route d) = [].
Proof.
  intros Hdep. destruct (dep d) as [[u|x] ws] eqn:H; simpl in Hdep; subst ws.
  - left. exists u. split; [reflexivity|]. now apply Depends_ok.
  - right. unfold Depends, bind. now rewrite H.
Qed.

Lemma get_admin_user_reads c d : snd (get_admin_user c d) = [].
Proof.
  unfold get_admin_user, bind. pose proof (get_current_user_reads c d) as Hr.
  destruct (get_current_user c d) as [[u|x] ws]; simpl in *; subst ws; auto.
  destruct (is_admin u); reflexivity.
Qed.

Lemma as_user_cases {A} c (route : User -> handler A) d :
  (exists u, get_current_user c d = (Return u, [])
             /\ as_user c route d = route u d)
  \/ snd (as_user c route d) = [].
Proof. apply Depends_cases, get_current_user_reads. Qed.

Lemma as_admin_cases {A} c (route : User -> handler A) d :
  (exists u, get_admin_user c d = (Return u, [])
             /\ as_admin c route d = route u d)
  \/ snd (as_admin c route d) = [].
Proof. apply Depends_cases, get_admin_user_reads. Qed.

(** The administrator's listing, encoded for the answer. *)
Lemma admin_listing_outcome c d :
  (rows <- as_admin c get_all_withdrawals ;; encode_raw_documents rows) d
  = match as_admin c get_all_withdrawals d with
    | (Return [], _) => (Return [], [])
    | (Return (_ :: _), _) =>
        (Raise {| status_code := 500; detail := "Internal Server Error" |}, [])
    | (Raise err, _) => (Raise err, [])
    end.
Proof.
  unfold bind.
  destruct (as_admin_cases c get_all_withdrawals d) as [(u & _ & ->)|Hw].
  - unfold get_all_withdrawals, read.
    destruct (map _ _); reflexivity.
  - destruct (as_admin c get_all_withdrawals d) as [[rows|err] ws].
    + simpl in Hw. subst ws. destruct rows; reflexivity.
    + simpl in Hw. now subst ws.
Qed.

Lemma admin_listing_no_write c d :
  snd ((rows <- as_admin c get_all_withdrawals ;; encode_raw_documents rows) d)
  = [].
Proof.
  rewrite admin_listing_outcome.
  destruct (as_admin c get_all_withdrawals d) as [[[|row rows]|err] ws];
    reflexivity.
Qed.

Lemma signup_journal e user_data d :
  journal e d (POST_auth_signup user_data) (snd (signup e user_data d)).
Proof.
  unfold signup, bind, read. simpl.
  destruct (find_user_by_email (uc_email user_data) d) eqn:Hemail; simpl.
  - constructor.
  - destruct (resolve_referral (uc_referral_code user_data) d) as [referrer|] eqn:Href;
      simpl.
    + now apply journal_signup_referred.
    + now apply journal_signup.
Qed.

Lemma request_withdrawal_journal e c body d u :
  get_current_user c d = (Return u, []) ->
  journal e d (POST_withdrawals_request c body)
    (snd (request_withdrawal e body u d)).
Proof.
  intros Hauth. pose proof Hauth as Hinv.
  apply get_current_user_inv in Hinv as (_ & _ & Hfind).
  unfold request_withdrawal.
  destruct (Qltb (wc_amount body) MINIMUM_WITHDRAWAL) eqn:Hmin;
    [constructor|].
  unfold bind, read. simpl. rewrite Hfind. simpl.
  destruct (Qltb (wallet_balance u) (wc_amount body)) eqn:Hbal;
    [constructor|].
  simpl. apply Qltb_ge in Hmin, Hbal.
  now apply journal_request_withdrawal.
Qed.

Lemma update_withdrawal_journal e c wid upd d admin :
  get_admin_user c d = (Return admin, []) ->
  journal e d (PUT_admin_withdrawals c wid upd)
    (snd (update_withdrawal e wid upd admin d)).
Proof.
  intros Hadmin.
  destruct (find_withdrawal wid d) as [w|] eqn:Hfind.
  - rewrite (update_withdrawal_writes _ _ _ _ _ _ Hfind). simpl.
    now apply journal_update_withdrawal with (admin := admin).
  - unfold update_withdrawal, bind, read. simpl. rewrite Hfind. constructor.
Qed.

(** The writes of every request are of one of the kinds of [journal]. *)
Lemma handle_journal e r d : journal e d r (snd (handle e r d)).
Proof.
  destruct r; simpl; rewrite snd_fmap.
  - apply signup_journal.
  - unfold login, bind, read. simpl.
    destruct (find_user_by_email _ d) as [u|]; simpl; [|constructor].
    destruct (verify_password _ _ _); constructor.
  - destruct (as_user_cases c get_current_user_info d) as [(u & _ & ->)| ->];
      constructor.
  - destruct (as_user_cases c (watch_ad e ad_data) d) as [(u & Hu & ->)| ->];
      [|constructor].
    now apply journal_watch_ad.
  - destruct (as_user_cases c get_wallet_balance d) as [(u & _ & ->)| ->];
      [|constructor].
    unfold get_wallet_balance, bind, read. simpl.
    destruct (find_user_by_id _ d); constructor.
  - destruct (as_user_cases c get_transactions d) as [(u & _ & ->)| ->];
      constructor.
  - destruct (as_user_cases c (request_withdrawal e withdrawal_data) d)
      as [(u & Hu & ->)| ->]; [|constructor].
    now apply request_withdrawal_journal.
  - destruct (as_user_cases c get_my_withdrawals d) as [(u & _ & ->)| ->];
      constructor.
  - rewrite admin_listing_no_write. constructor.
  - destruct (as_admin_cases c (update_withdrawal e withdrawal_id update_data) d)
      as [(u & Hu & ->)| ->]; [|constructor].
    now apply update_withdrawal_journal.
  - destruct (as_admin_cases c get_admin_stats d) as [(u & _ & ->)| ->];
      constructor.
Qed.

(** ** Transaction history *)

Lemma journal_transactions e d r ws :
  journal e d r ws ->
  match r with
  | POST_withdrawals_request _ _ => transactions (replay d ws) = transactions d
  | POST_ads_watch _ _ =>
      transactions (replay d ws) = transactions d
      \/ exists t, transactions (replay d ws) = transactions d ++ [t]
                   /\ tx_type t = "ad_reward"
  | POST_auth_signup _ =>
      transactions (replay d ws) = transactions d
      \/ exists t, transactions (replay d ws) = transactions d ++ [t]
                   /\ tx_type t = "referral_bonus"
  | _ => transactions (replay d ws) = transactions d
  end.
Proof.
  intros H. destruct H; simpl.
  - destruct r; auto.
  - now left.
  - right. eexists. split; reflexivity.
  - right. eexists. split; reflexivity.
  - reflexivity.
  - destruct (WithdrawalStatus_eqb _ _); reflexivity.
Qed.

(** C8.  A withdrawal request, accepted or not, leaves the transactions
    collection as it was.  Whatever the request, the collection afterwards
    is either unchanged or longer by one document; the latter only for an ad
    watch, with a transaction of type ad_reward, or for a signup, with a
    transaction of type referral_bonus. *)
Theorem transactions_only_from_credits e d :
  (forall c withdrawal_data,
      transactions (step e (POST_withdrawals_request c withdrawal_data) d)
      = transactions d)
  /\
  (forall r,
      transactions (step e r d) = transactions d
      \/ exists t,
           transactions (step e r d) = transactions d ++ [t]
           /\ ((exists c ad_data,
                   r = POST_ads_watch c ad_data /\ tx_type t = "ad_reward")
               \/ (exists user_data,
                      r = POST_auth_signup user_data
                      /\ tx_type t = "referral_bonus"))).
Proof.
  split.
  - intros c body. rewrite step_replay.
    exact (journal_transactions _ _ _ _
             (handle_journal e (POST_withdrawals_request c body) d)).
  - intros r. rewrite step_replay.
    pose proof (journal_transactions _ _ _ _ (handle_journal e r d)) as H.
    destruct r; auto; destruct H as [H|(t & H & Ht)]; auto;
      right; exists t; (split; [exact H|]); eauto.
Qed.

(** ** Non-negative balances *)

Lemma Forall_update_first {A} (P : A -> Prop) p f (l : list A) :
  Forall P l ->
  (forall x, find p l = Some x -> P x -> P (f x)) ->
  Forall P (update_first p f l).
Proof.
  induction l as [|y l IH]; simpl; intros HP Hf; [constructor|].
  inversion HP as [|? ? Hy Hl]; subst.
  destruct (p y) eqn:Hpy.
  - constructor; auto.
  - constructor; auto.
Qed.

Lemma Forall_snoc {A} (P : A -> Prop) (l : list A) x :
  Forall P l -> P x -> Forall P (l ++ [x]).
Proof. intros Hl Hx. apply Forall_app. split; auto. Qed.

Lemma balances_nonneg_inc uid db de da d :
  balances_nonneg d ->
  (forall u, find_user_by_id uid d = Some u -> 0 <= wallet_balance u + db) ->
  balances_nonneg (apply_write d (users_inc uid db de da)).
Proof.
  intros Hd Hu. unfold balances_nonneg. simpl.
  apply Forall_update_first; [exact Hd|].
  intros x Hx _. simpl. now apply Hu.
Qed.

(** On amounts that are numbers the guards of [request_withdrawal] do what
    they are there for: the two invariants together are kept by the writes
    of every kind. *)
Lemma journal_keeps_ledger e d r ws :
  journal e d r ws ->
  balances_nonneg d -> amounts_nonneg d ->
  balances_nonneg (replay d ws) /\ amounts_nonneg (replay d ws).
Proof.
  intros H Hb Ha.
  destruct H as [r| b Hemail Href | b referrer Hemail Href user
                | c ad u Hu | c body u Hu Hmin Hbal | c wid upd admin w Hadmin Hw].
  - split; assumption.
  - split; [|exact Ha].
    unfold balances_nonneg. simpl. apply Forall_snoc; [exact Hb|].
    simpl. apply Qle_refl.
  - split; [|exact Ha].
    unfold balances_nonneg. simpl. apply Forall_snoc.
    + apply (balances_nonneg_inc _ _ _ _ d Hb). intros x Hx.
      unfold find_user_by_id in Hx. apply find_some in Hx as [Hin _].
      unfold balances_nonneg in Hb. rewrite Forall_forall in Hb.
      specialize (Hb x Hin). unfold REFERRAL_BONUS. lra.
    + simpl. apply Qle_refl.
  - split; [|exact Ha].
    apply (balances_nonneg_inc _ _ _ _ d Hb). intros x Hx.
    unfold find_user_by_id in Hx. apply find_some in Hx as [Hin _].
    unfold balances_nonneg in Hb. rewrite Forall_forall in Hb.
    specialize (Hb x Hin). unfold REWARD_AMOUNT. lra.
  - apply get_current_user_inv in Hu as (_ & _ & Hfind). split.
    + apply (balances_nonneg_inc _ _ _ _ d Hb). intros x Hx.
      rewrite Hfind in Hx. injection Hx as <-. lra.
    + unfold amounts_nonneg. simpl. apply Forall_snoc; [exact Ha|].
      simpl. unfold MINIMUM_WITHDRAWAL in Hmin. lra.
  - assert (Hamount : 0 <= wd_amount w).
    { unfold amounts_nonneg in Ha. rewrite Forall_forall in Ha. apply Ha.
      unfold find_withdrawal in Hw. now apply find_some in Hw as [Hin _]. }
    assert (Hset : forall d0, amounts_nonneg d0 ->
              amounts_nonneg
                (apply_write d0
                   (withdrawals_set wid (wu_status upd) (isoformat (now e 0))
                      (truthy (wu_admin_notes upd))))).
    { intros d0 H0. unfold amounts_nonneg. simpl.
      apply Forall_update_first; [exact H0|]. intros x _ Hx. exact Hx. }
    destruct (WithdrawalStatus_eqb (wu_status upd) REJECTED); simpl.
    + split; [|apply Hset; exact Ha].
      apply (balances_nonneg_inc _ _ _ _ d Hb). intros x Hx.
      unfold find_user_by_id in Hx. apply find_some in Hx as [Hin _].
      unfold balances_nonneg in Hb. rewrite Forall_forall in Hb.
      specialize (Hb x Hin). lra.
    + split; [exact Hb|apply Hset; exact Ha].
Qed.

(** C5.  The code does not keep every wallet_balance at 0 or more.  A
    withdrawal request whose amount is NaN is not below the minimum and the
    balance is not below it, so both guards let it pass: the request is
    accepted, the wallet is debited by NaN and holds NaN from then on, which
    is not greater than or equal to 0, although the balance was before. *)
Theorem request_withdrawal_admits_nan :
  Binary64.nonneg 12.5 = true
  /\ (nan <? 10)%float = false
  /\ (12.5 <? nan)%float = false
  /\ Binary64.request_withdrawal 12.5 nan = Binary64.accepted nan
  /\ Binary64.nonneg nan = false.
Proof. repeat split. Qed.

(** A request of 10 or more against a smaller balance is still refused, and
    one within the balance leaves a balance of 0 or more: NaN is the case
    the guards miss. *)
Example request_withdrawal_on_numbers :
  Binary64.request_withdrawal 12.5 20 = Binary64.insufficient_balance
  /\ Binary64.request_withdrawal 12.5 5 = Binary64.below_minimum
  /\ Binary64.request_withdrawal 12.5 12 = Binary64.accepted 0.5.
Proof. repeat split. Qed.

(** With amounts that are numbers, no sequence of requests on an empty
    database drives a balance below zero. *)
Corollary reachable_balances_nonneg d :
  reachable d -> balances_nonneg d /\ amounts_nonneg d.
Proof.
  induction 1 as [|e r d _ [Hb Ha]].
  - split; constructor.
  - rewrite step_replay.
    now apply (journal_keeps_ledger e d r); [apply handle_journal| |].
Qed.

(** ** Listings *)

Lemma ascii_compare_refl a : Ascii.compare a a = Eq.
Proof. unfold Ascii.compare. apply N.compare_refl. Qed.

Lemma ascii_compare_lt_trans a b c :
  Ascii.compare a b = Lt -> Ascii.compare b c = Lt -> Ascii.compare a c = Lt.
Proof.
  unfold Ascii.compare. rewrite !N.compare_lt_iff. apply N.lt_trans.
Qed.

Lemma string_compare_refl s : String.compare s s = Eq.
Proof.
  induction s as [|a s IH]; simpl; [reflexivity|].
  now rewrite ascii_compare_refl.
Qed.

Lemma string_compare_lt_trans s1 :
  forall s2 s3,
    String.compare s1 s2 = Lt -> String.compare s2 s3 = Lt ->
    String.compare s1 s3 = Lt.
Proof.
  induction s1 as [|a s1 IH]; intros [|b s2] [|c s3]; simpl;
    try discriminate; auto.
  destruct (Ascii.compare a b) eqn:Hab; try discriminate;
    destruct (Ascii.compare b c) eqn:Hbc; try discriminate; intros H12 H23.
  - apply Ascii.compare_eq_iff in Hab, Hbc. subst.
    rewrite ascii_compare_refl. eauto.
  - apply Ascii.compare_eq_iff in Hab. subst. now rewrite Hbc.
  - apply Ascii.compare_eq_iff in Hbc. subst. now rewrite Hab.
  - now rewrite (ascii_compare_lt_trans _ _ _ Hab Hbc).
Qed.

Lemma string_leb_trans s1 s2 s3 :
  String.leb s1 s2 = true -> String.leb s2 s3 = true -> String.leb s1 s3 = true.
Proof.
  unfold String.leb.
  destruct (String.compare s1 s2) eqn:H12; try discriminate;
    destruct (String.compare s2 s3) eqn:H23; try discriminate; intros _ _.
  - apply String.compare_eq_iff in H12, H23. subst.
    now rewrite string_compare_refl.
  - apply String.compare_eq_iff in H12. subst. now rewrite H23.
  - apply String.compare_eq_iff in H23. subst. now rewrite H12.
  - now rewrite (string_compare_lt_trans _ _ _ H12 H23).
Qed.

Section Sorting.
Context {A : Type} (key : A -> string).

Lemma not_older_trans a b c :
  not_older key a b -> not_older key b c -> not_older key a c.
Proof. unfold not_older. intros Hab Hbc. eapply string_leb_trans; eauto. Qed.

Lemma insert_desc_perm x l : Permutation (insert_desc key x l) (x :: l).
Proof.
  induction l as [|y l IH]; simpl; [reflexivity|].
  destruct (String.leb (key y) (key x)); [reflexivity|].
  rewrite IH. apply perm_swap.
Qed.

Lemma sort_desc_perm l : Permutation (sort_desc key l) l.
Proof.
  induction l as [|x l IH]; simpl; [constructor|].
  fold (sort_desc key l). rewrite insert_desc_perm. now constructor.
Qed.

Lemma insert_desc_sorted x l :
  StronglySorted (not_older key) l ->
  StronglySorted (not_older key) (insert_desc key x l).
Proof.
  induction 1 as [|y l Hl IH Hy]; simpl.
  - repeat constructor.
  - destruct (String.leb (key y) (key x)) eqn:Hyx.
    + constructor; [now constructor|].
      constructor; [exact Hyx|].
      rewrite Forall_forall in *. intros z Hz.
      apply not_older_trans with y; [exact Hyx|auto].
    + constructor; [exact IH|].
      rewrite Forall_forall in *. intros z Hz.
      apply (Permutation_in _ (insert_desc_perm x l)) in Hz.
      destruct Hz as [<-|Hz]; [|auto].
      unfold not_older.
      destruct (String.leb_total (key x) (key y)) as [H|H]; [exact H|].
      congruence.
Qed.

Lemma sort_desc_sorted l : StronglySorted (not_older key) (sort_desc key l).
Proof.
  induction l as [|x l IH]; simpl; [constructor|].
  now apply insert_desc_sorted.
Qed.

Lemma sorted_app_inv (l1 l2 : list A) :
  StronglySorted (not_older key) (l1 ++ l2) ->
  StronglySorted (not_older key) l1
  /\ forall x y, In x l1 -> In y l2 -> not_older key x y.
Proof.
  induction l1 as [|a l1 IH]; simpl; intros H.
  - split; [constructor|]. intros x y [].
  - inversion H as [|? ? Hs Ha]; subst.
    destruct (IH Hs) as [Hs1 Hcross]. split.
    + constructor; [exact Hs1|].
      rewrite Forall_forall in *. intros z Hz. apply Ha.
      apply in_or_app. now left.
    + intros x y [<-|Hx] Hy; [|auto].
      rewrite Forall_forall in Ha. apply Ha. apply in_or_app. now right.
Qed.

(** Sorting by decreasing key and keeping 100 gives the first page. *)
Lemma to_list_sort_desc_first_page (source : list A) :
  first_page key source (to_list 100 (sort_desc key source)).
Proof.
  unfold first_page, to_list.
  pose proof (sort_desc_sorted source) as Hsorted.
  rewrite <- (firstn_skipn 100 (sort_desc key source)) in Hsorted.
  apply sorted_app_inv in Hsorted as [Hfirst Hcross].
  split; [apply firstn_le_length|].
  split.
  { rewrite length_firstn.
    now rewrite (Permutation_length (sort_desc_perm source)). }
  split; [exact Hfirst|].
  exists (skipn 100 (sort_desc key source)). split; [|exact Hcross].
  rewrite firstn_skipn. apply sort_desc_perm.
Qed.
End Sorting.


(** *** Stored timestamps sort chronologically *)

Lemma string_append_assoc (a b c : string) :
  ((a ++ b) ++ c = a ++ (b ++ c))%string.
Proof. induction a as [|x a IH]; simpl; [reflexivity|]. now rewrite IH. Qed.

Lemma string_compare_cons c s t :
  String.compare (String c s) (String c t) = String.compare s t.
Proof. simpl. now rewrite ascii_compare_refl. Qed.

Lemma digit_compare n m :
  Ascii.compare (digit n) (digit m) = (n mod 10 ?= m mod 10)%N.
Proof.
  unfold Ascii.compare, digit.
  pose proof (N.mod_upper_bound n 10 ltac:(lia)) as Hn.
  pose proof (N.mod_upper_bound m 10 ltac:(lia)) as Hm.
  rewrite !N_ascii_embedding by lia.
  destruct (N.compare_spec (n mod 10) (m mod 10)) as [H|H|H].
  - apply N.compare_eq_iff. lia.
  - apply N.compare_lt_iff. lia.
  - apply N.compare_gt_iff. lia.
Qed.

Lemma compare_by_digits n m :
  (n ?= m)%N = lex (n / 10 ?= m / 10)%N (n mod 10 ?= m mod 10)%N.
Proof.
  pose proof (N.div_mod n 10 ltac:(lia)) as Hn.
  pose proof (N.div_mod m 10 ltac:(lia)) as Hm.
  pose proof (N.mod_upper_bound n 10 ltac:(lia)) as Hn'.
  pose proof (N.mod_upper_bound m 10 ltac:(lia)) as Hm'.
  revert Hn Hm Hn' Hm'.
  generalize (n / 10)%N (m / 10)%N (n mod 10)%N (m mod 10)%N.
  intros qn qm rn rm Hn Hm Hn' Hm'.
  destruct (N.compare_spec qn qm) as [Hq|Hq|Hq]; simpl.
  - destruct (N.compare_spec rn rm) as [Hr|Hr|Hr].
    + apply N.compare_eq_iff. lia.
    + apply N.compare_lt_iff. lia.
    + apply N.compare_gt_iff. lia.
  - apply N.compare_lt_iff. lia.
  - apply N.compare_gt_iff. lia.
Qed.

(** Zero-padded numbers of the same width compare as the numbers do. *)
Lemma pad_compare w :
  forall n m s t,
    (n < 10 ^ N.of_nat w)%N -> (m < 10 ^ N.of_nat w)%N ->
    String.compare (pad w n ++ s) (pad w m ++ t)
    = lex (n ?= m)%N (String.compare s t).
Proof.
  induction w as [|w IH]; intros n m s t Hn Hm.
  - simpl in *. assert (n = 0%N) as -> by lia. assert (m = 0%N) as -> by lia.
    reflexivity.
  - cbn [pad]. rewrite !string_append_assoc. cbn [append].
    rewrite Nat2N.inj_succ, N.pow_succ_r' in Hn, Hm.
    rewrite IH by (apply N.Div0.div_lt_upper_bound; lia).
    cbn [String.compare]. rewrite digit_compare, (compare_by_digits n m).
    destruct (n / 10 ?= m / 10)%N; simpl; try reflexivity.
    destruct (n mod 10 ?= m mod 10)%N; reflexivity.
Qed.

Lemma isoformat_unfold t :
  isoformat t
  = (pad 4 (year t) ++ String "-" (pad 2 (month t) ++ String "-"
      (pad 2 (day t) ++ String "T" (pad 2 (hour t) ++ String ":"
        (pad 2 (minute t) ++ String ":" (pad 2 (second t) ++
          ((if N.eqb (microsecond t) 0 then ""
            else String "." (pad 6 (microsecond t) ++ "")) ++ "+00:00")))))))%string.
Proof.
  unfold isoformat. cbn [append].
  destruct (N.eqb (microsecond t) 0); [reflexivity|].
  cbn [append]. now rewrite string_append_assoc.
Qed.

(** The stored form of instants is ordered as the instants are. *)
Lemma isoformat_compare a b :
  valid_datetime a -> valid_datetime b ->
  String.compare (isoformat a) (isoformat b) = datetime_compare a b.
Proof.
  unfold valid_datetime. intros Ha Hb.
  rewrite !isoformat_unfold. unfold datetime_compare.
  rewrite pad_compare by (cbn; lia). f_equal. rewrite string_compare_cons.
  do 2 (rewrite pad_compare by (cbn; lia); f_equal; rewrite string_compare_cons).
  do 2 (rewrite pad_compare by (cbn; lia); f_equal; rewrite string_compare_cons).
  rewrite pad_compare by (cbn; lia). f_equal.
  destruct (N.eqb_spec (microsecond a) 0) as [Za|Za],
           (N.eqb_spec (microsecond b) 0) as [Zb|Zb].
  - rewrite Za, Zb. reflexivity.
  - rewrite Za. destruct (microsecond b); [congruence|reflexivity].
  - rewrite Zb. destruct (microsecond a); [congruence|reflexivity].
  - cbn [append]. rewrite string_compare_cons, !string_append_assoc.
    rewrite pad_compare by (cbn; lia).
    rewrite string_compare_refl. now destruct (_ ?= _)%N.
Qed.

Lemma isoformat_leb a b :
  valid_datetime a -> valid_datetime b ->
  (String.leb (isoformat a) (isoformat b) = true <-> datetime_compare a b <> Gt).
Proof.
  intros Ha Hb. unfold String.leb. rewrite (isoformat_compare a b Ha Hb).
  destruct (datetime_compare a b); split; congruence.
Qed.

Lemma row_withdrawal_join d l : map row_withdrawal (map (join_user d) l) = l.
Proof.
  rewrite map_map. simpl. apply map_id.
Qed.

Lemma listing_rows_empty (d : Database) :
  map (join_user d) (to_list 100 (sort_desc wd_requested_at (withdrawals d))) = []
  <-> withdrawals d = [].
Proof.
  split.
  - intros H. apply (f_equal (@length _)) in H.
    rewrite length_map in H. unfold to_list in H. rewrite length_firstn in H.
    rewrite (Permutation_length (sort_desc_perm wd_requested_at _)) in H.
    destruct (withdrawals d); [reflexivity|]. simpl in H. discriminate H.
  - intros ->. reflexivity.
Qed.

(** C9.  On every database, the transaction listing and the withdrawal
    listing of a caller who authenticates succeed and answer with the first
    page, by decreasing stored timestamp, of the caller's documents: at
    most 100, most recent first, none of the documents left out being more
    recent than one that is listed.  The administrator's listing builds the
    first page of all withdrawals in the same way, but hands the framework
    the raw documents: the route answers that page only when no withdrawal
    is on file, and status 500 as soon as there is one; it changes nothing
    in either case.  Timestamps are compared in their stored form, which
    for the instants the handlers store is the chronological order. *)
Theorem listings_newest_first_capped d :
  (forall c u,
      get_current_user c d = (Return u, []) ->
      (exists l,
          as_user c get_transactions d = (Return l, [])
          /\ first_page tx_created_at
               (filter (fun t => String.eqb (tx_user_id t) (u_id u))
                  (transactions d)) l)
      /\
      (exists l,
          as_user c get_my_withdrawals d = (Return l, [])
          /\ first_page wd_requested_at
               (filter (fun w => String.eqb (wd_user_id w) (u_id u))
                  (withdrawals d)) l))
  /\
  (forall e c admin,
      get_admin_user c d = (Return admin, []) ->
      exists rows,
        as_admin c get_all_withdrawals d = (Return rows, [])
        /\ first_page wd_requested_at (withdrawals d) (map row_withdrawal rows)
        /\ (withdrawals d = [] ->
            run (handle e (GET_admin_withdrawals c)) d
            = (Return (resp_all_withdrawals []), d))
        /\ (withdrawals d <> [] ->
            run (handle e (GET_admin_withdrawals c)) d
            = (Raise {| status_code := 500;
                        detail := "Internal Server Error" |}, d)))
  /\
  (forall t1 t2,
      valid_datetime t1 -> valid_datetime t2 ->
      (String.leb (isoformat t1) (isoformat t2) = true
       <-> datetime_compare t1 t2 <> Gt)).
Proof.
  split; [|split; [|apply isoformat_leb]].
  - intros c u Huser. split.
    + eexists. split.
      * unfold as_user. rewrite (Depends_ok _ _ _ _ Huser). reflexivity.
      * apply to_list_sort_desc_first_page.
    + eexists. split.
      * unfold as_user. rewrite (Depends_ok _ _ _ _ Huser). reflexivity.
      * apply to_list_sort_desc_first_page.
  - intros e c admin Hadmin.
    assert (Hrows : as_admin c get_all_withdrawals d
                    = (Return (map (join_user d)
                                 (to_list 100
                                    (sort_desc wd_requested_at (withdrawals d)))),
                       []))
      by (unfold as_admin; rewrite (Depends_ok _ _ _ _ Hadmin); reflexivity).
    eexists. split; [exact Hrows|].
    split; [rewrite row_withdrawal_join; apply to_list_sort_desc_first_page|].
    split.
    + intros Hnone. unfold run. simpl. unfold fmap, bind at 1.
      rewrite admin_listing_outcome, Hrows.
      rewrite (proj2 (listing_rows_empty d) Hnone). reflexivity.
    + intros Hsome. unfold run. simpl. unfold fmap, bind at 1.
      rewrite admin_listing_outcome, Hrows.
      destruct (map (join_user d) _) eqn:Hmap; [|reflexivity].
      now apply listing_rows_empty in Hmap.
Qed.

Lemma listings_newest_first_capped_witness :
  ((exists l,
       as_user Scenario.as_bob get_transactions Scenario.db = (Return l, [])
       /\ first_page tx_created_at
            (filter (fun t => String.eqb (tx_user_id t) "bob-id")
               (transactions Scenario.db)) l)
   /\
   (exists l,
       as_user Scenario.as_bob get_my_withdrawals Scenario.db = (Return l, [])
       /\ first_page wd_requested_at
            (filter (fun w => String.eqb (wd_user_id w) "bob-id")
               (withdrawals Scenario.db)) l))
  /\
  (exists rows,
      as_admin Scenario.as_root get_all_withdrawals Scenario.db
      = (Return rows, [])
      /\ first_page wd_requested_at (withdrawals Scenario.db)
           (map row_withdrawal rows)
      /\ run (handle Scenario.env (GET_admin_withdrawals Scenario.as_root))
             Scenario.db
         = (Raise {| status_code := 500; detail := "Internal Server Error" |},
            Scenario.db)).
Proof.
  split.
  - apply (listings_newest_first_capped Scenario.db) with (u := Scenario.bob).
    reflexivity.
  - destruct (proj1 (proj2 (listings_newest_first_capped Scenario.db))
                Scenario.env Scenario.as_root Scenario.root eq_refl)
      as (rows & Hrows & Hpage & _ & Hfail).
    exists rows. split; [exact Hrows|]. split; [exact Hpage|].
    apply Hfail. discriminate.
Defined.

(** ** The scenarios of the specification, run on the model *)

(** A user signs up without referral, watches one ad, and asks for
    min(10, balance): the wallet holds 0.5 after the ad, and the request is
    refused as below the minimum with the wallet unchanged. *)
Example scenario_signup_watch_withdraw :
  let d1 := step Scenario.env (POST_auth_signup (Scenario.carol None)) empty_db in
  let carol := Payload (Some "3f2c9a1e-aaaa") in
  let d2 := step Scenario.env' (POST_ads_watch carol Scenario.video) d1 in
  let ask := as_user carol
               (request_withdrawal Scenario.env' (Scenario.withdraw (1 # 2))) in
  fst (run (as_user carol get_wallet_balance) d1)
    = Return {| br_balance := 0; br_total_earned := 0; br_ads_watched := 0 |}
  /\ fst (run (as_user carol get_wallet_balance) d2)
     = Return {| br_balance := 1 # 2; br_total_earned := 1 # 2;
                 br_ads_watched := 1 |}
  /\ run ask d2
     = (Raise {| status_code := 400;
                 detail := "Minimum withdrawal amount is $10" |}, d2).
Proof. vm_compute. repeat split. Qed.

(** A signs up and obtains a code; B signs up with it: A holds the bonus, B
    holds nothing, and A has exactly one transaction, a referral bonus. *)
Example scenario_referral :
  let a := {| uc_email := "a@example.com"; uc_password := "a";
              uc_full_name := "A"; uc_referral_code := None |} in
  let b := {| uc_email := "b@example.com"; uc_password := "b";
              uc_full_name := "B"; uc_referral_code := Some "7B1D44C0" |} in
  let d1 := step Scenario.env (POST_auth_signup a) empty_db in
  let d2 := step Scenario.env' (POST_auth_signup b) d1 in
  option_map referral_code (find_user_by_id "3f2c9a1e-aaaa" d1) = Some "7B1D44C0"
  /\ option_map wallet_balance (find_user_by_id "3f2c9a1e-aaaa" d2) = Some 5
  /\ option_map wallet_balance (find_user_by_id "d4e5f6a7-dddd" d2) = Some 0
  /\ option_map referred_by (find_user_by_id "d4e5f6a7-dddd" d2)
     = Some (Some "3f2c9a1e-aaaa")
  /\ map tx_type (transactions d2) = ["referral_bonus"]
  /\ map tx_user_id (transactions d2) = ["3f2c9a1e-aaaa"].
Proof. vm_compute. repeat split. Qed.

(** Alice withdraws 12 of her 12.5 and the administrator rejects the
    request: the wallet is back at 12.5.  Rejecting the same request once
    more credits it again. *)
Example scenario_reject_twice :
  let d1 := step Scenario.env
              (POST_withdrawals_request Scenario.as_alice (Scenario.withdraw 12))
              Scenario.db in
  let reject := PUT_admin_withdrawals Scenario.as_root "3f2c9a1e-aaaa"
                  (Scenario.decide REJECTED) in
  let d2 := step Scenario.env' reject d1 in
  let d3 := step Scenario.env' reject d2 in
  let balance d := option_map wallet_balance (find_user_by_id "alice-id" d) in
  balance Scenario.db = Some (25 # 2)
  /\ option_map Qred (balance d1) = Some (1 # 2)
  /\ option_map Qred (balance d2) = Some (25 # 2)
  /\ option_map wd_status (find_withdrawal "3f2c9a1e-aaaa" d2) = Some REJECTED
  /\ option_map Qred (balance d3) = Some (49 # 2).
Proof. vm_compute. repeat split. Qed.

(** The new_balance of an ad watch comes from the record the route was
    handed: with a record that still shows 12.5 while the store holds 0.5,
    the answer is 13 and the store ends at 1. *)
Example scenario_stale_record :
  let d1 := step Scenario.env
              (POST_withdrawals_request Scenario.as_alice (Scenario.withdraw 12))
              Scenario.db in
  let (r, d2) := run (watch_ad Scenario.env' Scenario.video Scenario.alice) d1 in
  match r with
  | Return resp => Qred (war_new_balance resp) = 13
  | Raise _ => False
  end
  /\ option_map (fun u => Qred (wallet_balance u)) (find_user_by_id "alice-id" d2)
     = Some 1.
Proof. vm_compute. repeat split. Qed.

(** With 150 transactions on file the listing gives the 100 latest, the
    latest first. *)
Example scenario_long_history :
  exists l,
    as_user Scenario.as_alice get_transactions Scenario.db_busy = (Return l, [])
    /\ length l = 100%nat
    /\ map tx_created_at l
       = map (fun k => isoformat (Scenario.tick k)) (rev (seq 50 100)).
Proof. eexists. split; [reflexivity|]. vm_compute. split; reflexivity. Qed.

(** * Further properties of the routes *)

(** ** Refusals change nothing *)

Lemma fst_fmap_raise {A B} (f : A -> B) (h : handler A) d err :
  fst (fmap f h d) = Raise err -> fst (h d) = Raise err.
Proof.
  unfold fmap, bind, ret. destruct (h d) as [[a|x] ws]; simpl.
  - discriminate.
  - intros H. injection H as ->. reflexivity.
Qed.

Lemma fst_fmap_return {A B} (f : A -> B) (h : handler A) d b :
  fst (fmap f h d) = Return b -> exists a, fst (h d) = Return a /\ b = f a.
Proof.
  unfold fmap, bind, ret. destruct (h d) as [[a|x] ws]; simpl; [|discriminate].
  intros H. injection H as <-. eauto.
Qed.

Lemma Depends_raise {A} (dep : handler User) (route : User -> handler A) d err :
  snd (dep d) = [] ->
  (forall u, fst (route u d) = Raise err -> snd (route u d) = []) ->
  fst (Depends dep route d) = Raise err -> snd (Depends dep route d) = [].
Proof.
  intros Hdep Hroute.
  destruct (Depends_cases dep route d Hdep) as [(u & _ & ->)|H]; auto.
Qed.

Lemma signup_raise e b d err :
  fst (signup e b d) = Raise err -> snd (signup e b d) = [].
Proof.
  unfold signup, bind, read. simpl.
  destruct (find_user_by_email (uc_email b) d); simpl; [reflexivity|].
  destruct (resolve_referral (uc_referral_code b) d); simpl; discriminate.
Qed.

Lemma request_withdrawal_raise e b u d err :
  fst (request_withdrawal e b u d) = Raise err ->
  snd (request_withdrawal e b u d) = [].
Proof.
  unfold request_withdrawal.
  destruct (Qltb (wc_amount b) MINIMUM_WITHDRAWAL); [reflexivity|].
  unfold bind, read. simpl.
  destruct (find_user_by_id (u_id u) d) as [user|]; simpl; [|reflexivity].
  destruct (Qltb (wallet_balance user) (wc_amount b)); simpl;
    [reflexivity|discriminate].
Qed.

Lemma update_withdrawal_raise e wid upd admin d err :
  fst (update_withdrawal e wid upd admin d) = Raise err ->
  snd (update_withdrawal e wid upd admin d) = [].
Proof.
  destruct (find_withdrawal wid d) as [w|] eqn:Hfind.
  - rewrite (update_withdrawal_writes _ _ _ _ _ _ Hfind). discriminate.
  - unfold update_withdrawal, bind, read. simpl. now rewrite Hfind.
Qed.

Lemma lookup_no_write e r d : is_lookup r = true -> snd (handle e r d) = [].
Proof.
  destruct r; try discriminate; intros _; simpl; rewrite snd_fmap.
  - unfold login, bind, read. simpl.
    destruct (find_user_by_email _ d) as [u|]; simpl; [|reflexivity].
    destruct (verify_password _ _ _); reflexivity.
  - destruct (as_user_cases c get_current_user_info d) as [(u & _ & ->)| ->];
      reflexivity.
  - destruct (as_user_cases c get_wallet_balance d) as [(u & _ & ->)| ->];
      [|reflexivity].
    unfold get_wallet_balance, bind, read. simpl.
    destruct (find_user_by_id _ d); reflexivity.
  - destruct (as_user_cases c get_transactions d) as [(u & _ & ->)| ->];
      reflexivity.
  - destruct (as_user_cases c get_my_withdrawals d) as [(u & _ & ->)| ->];
      reflexivity.
  - apply admin_listing_no_write.
  - destruct (as_admin_cases c get_admin_stats d) as [(u & _ & ->)| ->];
      reflexivity.
Qed.

Lemma handle_raise_no_write e r d err :
  fst (handle e r d) = Raise err -> snd (handle e r d) = [].
Proof.
  destruct (is_lookup r) eqn:Hl; [intros _; now apply lookup_no_write|].
  destruct r; try discriminate; simpl; intros H; apply fst_fmap_raise in H;
    rewrite snd_fmap.
  - now apply signup_raise with err.
  - revert H. apply Depends_raise; [apply get_current_user_reads|].
    intros u. discriminate.
  - revert H. apply Depends_raise; [apply get_current_user_reads|].
    intros u. apply request_withdrawal_raise.
  - revert H. apply Depends_raise; [apply get_admin_user_reads|].
    intros u. apply update_withdrawal_raise.
Qed.

(** X1.  The routes refuse before they write: whenever a request is
    answered with one of the errors the handlers raise themselves (status
    400, 401, 403 or 404), the database is the one the request found. *)
Theorem refused_request_changes_nothing e r d err :
  fst (run (handle e r) d) = Raise err ->
  In (status_code err) [400; 401; 403; 404]%nat ->
  step e r d = d.
Proof.
  unfold run. rewrite step_replay.
  destruct (handle e r d) as [res ws] eqn:H. simpl. intros Hres _.
  pose proof (handle_raise_no_write e r d err) as Hw.
  rewrite H in Hw. simpl in Hw. now rewrite (Hw Hres).
Qed.

Lemma refused_request_changes_nothing_witness :
  step Scenario.env
    (POST_withdrawals_request Scenario.as_alice (Scenario.withdraw 20))
    Scenario.db = Scenario.db.
Proof.
  apply (refused_request_changes_nothing Scenario.env
           (POST_withdrawals_request Scenario.as_alice (Scenario.withdraw 20))
           Scenario.db
           {| status_code := 400; detail := "Insufficient balance" |}).
  - reflexivity.
  - simpl. auto.
Defined.

(** X2.  The routes that only look things up (login, the caller's profile,
    balance, transactions and withdrawals, the administrator's listing and
    statistics) leave the database exactly as it was, whatever they answer. *)
Theorem lookup_changes_nothing e r d :
  is_lookup r = true -> step e r d = d.
Proof.
  intros H. rewrite step_replay. now rewrite (lookup_no_write e r d H).
Qed.

Lemma lookup_changes_nothing_witness :
  step Scenario.env (GET_admin_withdrawals Scenario.as_root) Scenario.db
  = Scenario.db.
Proof.
  apply (lookup_changes_nothing Scenario.env
           (GET_admin_withdrawals Scenario.as_root) Scenario.db).
  reflexivity.
Defined.

(** ** Who may call what *)

Lemma Depends_fail {A} (dep : handler User) (route : User -> handler A) d err ws :
  dep d = (Raise err, ws) -> Depends dep route d = (Raise err, ws).
Proof. intros H. unfold Depends, bind. now rewrite H. Qed.

Lemma fmap_fail {A B} (f : A -> B) (h : handler A) d err ws :
  h d = (Raise err, ws) -> fmap f h d = (Raise err, ws).
Proof. intros H. unfold fmap, bind. now rewrite H. Qed.

Lemma get_current_user_fail c d :
  (forall u, fst (get_current_user c d) <> Return u) ->
  get_current_user c d
  = (Raise {| status_code := 401;
              detail := match c with
                        | ExpiredSignatureError => "Token expired"
                        | Payload (Some _) => "User not found"
                        | _ => "Invalid token"
                        end |}, []).
Proof.
  destruct c as [| |[uid|]]; try reflexivity.
  unfold get_current_user, bind, read. simpl.
  destruct (find_user_by_id uid d) as [u|]; simpl; [|reflexivity].
  intros H. now destruct (H u).
Qed.

Lemma get_admin_user_fail c d err ws :
  get_current_user c d = (Raise err, ws) -> get_admin_user c d = (Raise err, ws).
Proof. intros H. unfold get_admin_user, bind. now rewrite H. Qed.

Lemma get_admin_user_forbidden c d u :
  get_current_user c d = (Return u, []) -> is_admin u = false ->
  get_admin_user c d
  = (Raise {| status_code := 403; detail := "Admin access required" |}, []).
Proof.
  intros H Ha. unfold get_admin_user, bind. rewrite H. simpl. now rewrite Ha.
Qed.

Lemma get_admin_user_return c d u ws :
  get_admin_user c d = (Return u, ws) ->
  get_current_user c d = (Return u, []) /\ is_admin u = true.
Proof.
  unfold get_admin_user, bind.
  destruct (get_current_user c d) as [[u0|x] ws0] eqn:Hc; [|discriminate].
  apply get_current_user_inv in Hc as Hi. destruct Hi as (-> & _ & _).
  simpl. destruct (is_admin u0) eqn:Ha; simpl; [|discriminate].
  intros H. injection H as <- <-. auto.
Qed.

(** A route whose dependency failed answers with the dependency's error and
    writes what the dependency wrote. *)
Lemma handle_dependency_fail e r c d err :
  credentials_of r = Some c ->
  (if is_admin_route r then get_admin_user c d else get_current_user c d)
  = (Raise err, []) ->
  handle e r d = (Raise err, []).
Proof.
  destruct r; try discriminate; simpl; intros Hc H; injection Hc as ->;
    apply fmap_fail;
    try (unfold as_user, as_admin; now apply Depends_fail).
  rewrite admin_listing_outcome. unfold as_admin.
  now rewrite (Depends_fail _ get_all_withdrawals _ _ _ H).
Qed.

(** X3.  Every route that asks for a bearer token answers 401 and changes
    nothing when the token does not resolve to a stored user: "Token
    expired" for an expired token, "User not found" for a sound token whose
    user is not on file, "Invalid token" otherwise. *)
Theorem unauthenticated_request_refused e r c d :
  credentials_of r = Some c ->
  (forall u, fst (get_current_user c d) <> Return u) ->
  run (handle e r) d
  = (Raise {| status_code := 401;
              detail := match c with
                        | ExpiredSignatureError => "Token expired"
                        | Payload (Some _) => "User not found"
                        | _ => "Invalid token"
                        end |}, d).
Proof.
  intros Hc Hfail. apply get_current_user_fail in Hfail.
  unfold run. erewrite (handle_dependency_fail e r c d); [reflexivity|exact Hc|].
  destruct (is_admin_route r); [now apply get_admin_user_fail|exact Hfail].
Qed.

Lemma unauthenticated_request_refused_witness :
  run (handle Scenario.env
         (POST_ads_watch (Payload (Some "mallory-id")) Scenario.video))
      Scenario.db
  = (Raise {| status_code := 401; detail := "User not found" |}, Scenario.db).
Proof.
  apply (unauthenticated_request_refused Scenario.env
           (POST_ads_watch (Payload (Some "mallory-id")) Scenario.video)
           (Payload (Some "mallory-id")) Scenario.db).
  - reflexivity.
  - intros u. discriminate.
Defined.

(** X4.  The administrator's routes (listing all withdrawals, processing a
    withdrawal, the statistics) answer 403 "Admin access required" and
    change nothing for an authenticated caller who is not an administrator;
    whenever one of them answers without error, the caller is a stored user
    with the administrator flag. *)
Theorem admin_route_requires_admin e r c d :
  credentials_of r = Some c ->
  is_admin_route r = true ->
  (forall u,
      get_current_user c d = (Return u, []) -> is_admin u = false ->
      run (handle e r) d
      = (Raise {| status_code := 403; detail := "Admin access required" |}, d))
  /\
  (forall resp,
      fst (run (handle e r) d) = Return resp ->
      exists u, get_current_user c d = (Return u, []) /\ is_admin u = true).
Proof.
  intros Hc Hr. split.
  - intros u Hu Ha. unfold run.
    erewrite (handle_dependency_fail e r c d); [reflexivity|exact Hc|].
    rewrite Hr. now apply get_admin_user_forbidden with u.
  - intros resp. unfold run.
    destruct (handle e r d) as [res ws] eqn:H. simpl. intros ->.
    destruct (get_admin_user c d) as [[u|err] ws0] eqn:Ha.
    + exists u. now apply get_admin_user_return in Ha.
    + pose proof (get_admin_user_reads c d) as Hw. rewrite Ha in Hw.
      simpl in Hw. subst ws0.
      rewrite (handle_dependency_fail e r c d err Hc) in H; [discriminate|].
      now rewrite Hr.
Qed.

Lemma admin_route_requires_admin_witness :
  run (handle Scenario.env
         (PUT_admin_withdrawals Scenario.as_bob "wd-2" (Scenario.decide APPROVED)))
      Scenario.db
  = (Raise {| status_code := 403; detail := "Admin access required" |},
     Scenario.db)
  /\
  exists u, get_current_user Scenario.as_root Scenario.db = (Return u, [])
            /\ is_admin u = true.
Proof.
  split.
  - apply (admin_route_requires_admin Scenario.env
             (PUT_admin_withdrawals Scenario.as_bob "wd-2"
                (Scenario.decide APPROVED))
             Scenario.as_bob Scenario.db eq_refl eq_refl)
      with (u := Scenario.bob); reflexivity.
  - apply (admin_route_requires_admin Scenario.env
             (GET_admin_stats Scenario.as_root)
             Scenario.as_root Scenario.db eq_refl eq_refl)
      with (resp := resp_stats
                      {| total_users := 3; total_withdrawals := 2;
                         pending_withdrawals := 1; total_ads_watched := 0 |}).
    reflexivity.
Defined.

(** ** Signing up, then coming back *)

Lemma find_app_r {A} (p : A -> bool) (l l' : list A) :
  find p l = None -> find p (l ++ l') = find p l'.
Proof.
  induction l as [|y l IH]; simpl; [reflexivity|].
  destruct (p y); [discriminate|auto].
Qed.

Lemma find_update_first_none {A} (p q : A -> bool) (f : A -> A) (l : list A) :
  (forall x, q (f x) = q x) ->
  find q l = None -> find q (update_first p f l) = None.
Proof.
  intros Hq. induction l as [|y l IH]; simpl; [reflexivity|].
  destruct (q y) eqn:Hy; [discriminate|]. intros H.
  destruct (p y); simpl.
  - now rewrite Hq, Hy.
  - rewrite Hy. auto.
Qed.

Lemma map_update_first {A B} (g : A -> B) (p : A -> bool) (f : A -> A) (l : list A) :
  (forall x, g (f x) = g x) -> map g (update_first p f l) = map g l.
Proof.
  intros Hg. induction l as [|y l IH]; simpl; [reflexivity|].
  destruct (p y); simpl; [now rewrite Hg|now rewrite IH].
Qed.

(** The users a signup leaves, when the email was free. *)
Lemma signup_users e b d :
  find_user_by_email (uc_email b) d = None ->
  run (signup e b) d
  = (Return (create_jwt_token (uuid4 e 0) (uc_email b),
             user_response (signed_up e b d)),
     step e (POST_auth_signup b) d)
  /\ users (step e (POST_auth_signup b) d)
     = match resolve_referral (uc_referral_code b) d with
       | Some referrer =>
           update_first (has_id (u_id referrer))
             (inc_user REFERRAL_BONUS REFERRAL_BONUS 0) (users d)
       | None => users d
       end ++ [signed_up e b d].
Proof.
  intros Hemail. unfold step, run, signed_up. simpl.
  unfold fmap, signup, bind, read. simpl. rewrite Hemail. simpl.
  destruct (resolve_referral (uc_referral_code b) d) as [r|]; simpl;
    split; reflexivity.
Qed.

Lemma signed_up_fields e b d :
  u_id (signed_up e b d) = uuid4 e 0
  /\ email (signed_up e b d) = uc_email b
  /\ password_hash (signed_up e b d) = hash_password e (uc_password b)
  /\ referral_code (signed_up e b d) = upper (substring 0 8 (uuid4 e 1))
  /\ wallet_balance (signed_up e b d) = 0
  /\ is_admin (signed_up e b d) = false.
Proof.
  unfold signed_up.
  destruct (resolve_referral (uc_referral_code b) d); repeat split.
Qed.

Lemma find_after_signup (q : User -> bool) e b d :
  (forall db de da x, q (inc_user db de da x) = q x) ->
  find_user_by_email (uc_email b) d = None ->
  find q (users d) = None ->
  q (signed_up e b d) = true ->
  find q (users (step e (POST_auth_signup b) d)) = Some (signed_up e b d).
Proof.
  intros Hq Hemail Hnone Hnew.
  destruct (signup_users e b d Hemail) as [_ ->].
  rewrite find_app_r; [simpl; now rewrite Hnew|].
  destruct (resolve_referral (uc_referral_code b) d); [|exact Hnone].
  apply find_update_first_none; [intros x; apply Hq|exact Hnone].
Qed.

(** X5.  After a signup with an email that was free, logging in with the
    same email and password succeeds (bcrypt accepting the password against
    the hash it made) and answers with the profile that was stored and a
    token for its id; with a password bcrypt does not accept, login answers
    401 "Invalid email or password".  Neither changes the database. *)
Theorem signup_then_login e e' b d :
  find_user_by_email (uc_email b) d = None ->
  let d' := step e (POST_auth_signup b) d in
  let user := signed_up e b d in
  (verify_password e' (uc_password b) (hash_password e (uc_password b)) = true ->
   run (login e' {| ul_email := uc_email b; ul_password := uc_password b |}) d'
   = (Return (create_jwt_token (uuid4 e 0) (uc_email b), user_response user), d'))
  /\
  (forall password,
      verify_password e' password (hash_password e (uc_password b)) = false ->
      run (login e' {| ul_email := uc_email b; ul_password := password |}) d'
      = (Raise {| status_code := 401; detail := "Invalid email or password" |},
         d')).
Proof.
  intros Hemail d' user.
  assert (Hfind : find_user_by_email (uc_email b) d' = Some user).
  { apply find_after_signup; auto.
    unfold has_email. destruct (signed_up_fields e b d) as (_ & -> & _).
    apply String.eqb_refl. }
  destruct (signed_up_fields e b d) as (Hid & Hmail & Hhash & _).
  fold user in Hid, Hmail, Hhash.
  split.
  - intros Hok. unfold run, login, bind, read. simpl. rewrite Hfind. simpl.
    rewrite Hhash, Hok. simpl. now rewrite Hid, Hmail.
  - intros password Hbad. unfold run, login, bind, read. simpl.
    rewrite Hfind. simpl. rewrite Hhash, Hbad. reflexivity.
Qed.

Lemma signup_then_login_witness :
  let d' := step Scenario.env (POST_auth_signup (Scenario.carol None))
              Scenario.db in
  let user := signed_up Scenario.env (Scenario.carol None) Scenario.db in
  run (login Scenario.env'
         {| ul_email := "carol@example.com"; ul_password := "carol" |}) d'
  = (Return (create_jwt_token "3f2c9a1e-aaaa" "carol@example.com",
             user_response user), d')
  /\
  run (login Scenario.env'
         {| ul_email := "carol@example.com"; ul_password := "guess" |}) d'
  = (Raise {| status_code := 401; detail := "Invalid email or password" |}, d').
Proof.
  split.
  - apply (signup_then_login Scenario.env Scenario.env' (Scenario.carol None)
             Scenario.db); reflexivity.
  - apply (signup_then_login Scenario.env Scenario.env' (Scenario.carol None)
             Scenario.db); reflexivity.
Defined.

(** X6.  After a signup with a free email and an id no stored user has, the
    token the signup answered with authenticates: the dependency resolves
    it, on the database the signup left, to the user that was stored, whose
    wallet is empty and who is not an administrator. *)
Theorem signup_then_authenticate e b d :
  find_user_by_email (uc_email b) d = None ->
  find_user_by_id (uuid4 e 0) d = None ->
  exists tok profile user,
    fst (run (signup e b) d) = Return (tok, profile)
    /\ get_current_user (Payload (Some (tk_user_id tok)))
         (step e (POST_auth_signup b) d) = (Return user, [])
    /\ user_response user = profile
    /\ wallet_balance user = 0
    /\ is_admin user = false.
Proof.
  intros Hemail Hfresh.
  destruct (signup_users e b d Hemail) as [Hrun _].
  destruct (signed_up_fields e b d) as (Hid & _ & _ & _ & Hbal & Hadm).
  eexists _, _, (signed_up e b d).
  split; [rewrite Hrun; reflexivity|].
  split; [|auto].
  simpl. unfold get_current_user, bind, read. simpl.
  unfold find_user_by_id at 1.
  rewrite (find_after_signup (has_id (uuid4 e 0))); auto.
  unfold has_id. rewrite Hid. apply String.eqb_refl.
Qed.

Lemma signup_then_authenticate_witness :
  exists tok profile user,
    fst (run (signup Scenario.env (Scenario.carol (Some "A1B2C3D4"))) Scenario.db)
    = Return (tok, profile)
    /\ get_current_user (Payload (Some (tk_user_id tok)))
         (step Scenario.env
            (POST_auth_signup (Scenario.carol (Some "A1B2C3D4"))) Scenario.db)
       = (Return user, [])
    /\ user_response user = profile
    /\ wallet_balance user = 0
    /\ is_admin user = false.
Proof.
  apply (signup_then_authenticate Scenario.env
           (Scenario.carol (Some "A1B2C3D4")) Scenario.db); reflexivity.
Defined.

(** ** What the routes keep of the users *)

Lemma find_email_absent em (l : list User) :
  find (has_email em) l = None -> ~ In em (map email l).
Proof.
  induction l as [|y l IH]; simpl; [tauto|].
  unfold has_email at 1. destruct (String.eqb_spec (email y) em) as [|Hne];
    [discriminate|].
  intros H [Heq|Hin]; [congruence|]. now apply IH.
Qed.

Lemma NoDup_snoc {A} (l : list A) x : NoDup l -> ~ In x l -> NoDup (l ++ [x]).
Proof.
  intros Hl Hx. apply NoDup_app; [exact Hl|repeat constructor; intros []|].
  intros a Ha [<-|[]]. contradiction.
Qed.

Lemma map_email_inc uid db de da (l : list User) :
  map email (update_first (has_id uid) (inc_user db de da) l) = map email l.
Proof. now apply map_update_first. Qed.

(** X7.  A signup with an email that is already registered is refused with
    400 "Email already registered" and changes nothing, also when it cites a
    referral code that resolves: no bonus is paid.  As no route writes an
    email otherwise, a database where no two users share an email stays so
    under every request. *)
Theorem emails_stay_unique e r d :
  (forall b holder,
      find_user_by_email (uc_email b) d = Some holder ->
      run (signup e b) d
      = (Raise {| status_code := 400; detail := "Email already registered" |}, d))
  /\ (emails_unique d -> emails_unique (step e r d)).
Proof.
  split.
  - intros b holder H. unfold run, signup, bind, read. simpl. now rewrite H.
  - intros Hu. rewrite step_replay.
    pose proof (handle_journal e r d) as H.
    remember (snd (handle e r d)) as ws eqn:Hws. clear Hws.
    unfold emails_unique in *.
    destruct H as [r| b Hemail Href | b referrer Hemail Href user
                  | c ad u Hauth | c body u Hauth Hmin Hbal
                  | c wid upd admin w Hadmin Hw]; simpl.
    + exact Hu.
    + rewrite map_app. simpl. apply NoDup_snoc; [exact Hu|].
      now apply find_email_absent.
    + rewrite map_app, map_email_inc. simpl. apply NoDup_snoc; [exact Hu|].
      now apply find_email_absent.
    + now rewrite map_email_inc.
    + now rewrite map_email_inc.
    + destruct (WithdrawalStatus_eqb _ _); simpl; [now rewrite map_email_inc|exact Hu].
Qed.

Lemma emails_stay_unique_witness :
  run (signup Scenario.env
         {| uc_email := "bob@example.com"; uc_password := "x";
            uc_full_name := "Bobby"; uc_referral_code := Some "A1B2C3D4" |})
      Scenario.db
  = (Raise {| status_code := 400; detail := "Email already registered" |},
     Scenario.db)
  /\ emails_unique
       (step Scenario.env (POST_auth_signup (Scenario.carol None)) Scenario.db).
Proof.
  split.
  - apply (emails_stay_unique Scenario.env
             (POST_auth_signup (Scenario.carol None)) Scenario.db)
      with (holder := Scenario.bob).
    reflexivity.
  - apply (emails_stay_unique Scenario.env
             (POST_auth_signup (Scenario.carol None)) Scenario.db).
    unfold emails_unique. simpl.
    repeat constructor; simpl; intuition discriminate.
Defined.

Lemma same_identity_refl u : same_identity u u.
Proof. repeat split. Qed.

Lemma same_identity_inc db de da u : same_identity u (inc_user db de da u).
Proof. repeat split. Qed.

Lemma find_user_inc_cases uid uid0 db de da d u :
  find_user_by_id uid d = Some u ->
  find_user_by_id uid (apply_write d (users_inc uid0 db de da))
  = Some (if String.eqb uid0 uid then inc_user db de da u else u).
Proof.
  intros H. destruct (String.eqb_spec uid0 uid) as [->|Hne].
  - now apply find_user_after_inc.
  - rewrite find_other_user_after_inc; [exact H|congruence].
Qed.

Lemma find_user_after_insert uid d u x :
  find_user_by_id uid d = Some u ->
  find_user_by_id uid (apply_write d (users_insert x)) = Some u.
Proof. unfold find_user_by_id. simpl. apply find_app_l. Qed.

Lemma user_kept_by_inc uid0 db de da u :
  0 <= de -> (0 <= da)%Z ->
  let u' := if String.eqb uid0 (u_id u) then inc_user db de da u else u in
  same_identity u u' /\ total_earned u <= total_earned u'
  /\ (ads_watched u <= ads_watched u')%Z.
Proof.
  intros Hde Hda. simpl. destruct (String.eqb uid0 (u_id u)); simpl.
  - split; [apply same_identity_inc|]. split; [lra|lia].
  - split; [apply same_identity_refl|]. split; [apply Qle_refl|lia].
Qed.

Lemma journal_keeps_user e d r ws uid u :
  journal e d r ws ->
  find_user_by_id uid d = Some u ->
  exists u',
    find_user_by_id uid (replay d ws) = Some u'
    /\ same_identity u u'
    /\ total_earned u <= total_earned u'
    /\ (ads_watched u <= ads_watched u')%Z.
Proof.
  intros H Hfind. pose proof (find_user_by_id_id _ _ _ Hfind) as Hid.
  assert (Hinc : forall uid0 db de da,
             0 <= de -> (0 <= da)%Z ->
             exists u',
               find_user_by_id uid (apply_write d (users_inc uid0 db de da))
               = Some u'
               /\ same_identity u u' /\ total_earned u <= total_earned u'
               /\ (ads_watched u <= ads_watched u')%Z).
  { intros uid0 db de da Hde Hda. eexists. split.
    - apply find_user_inc_cases. exact Hfind.
    - rewrite <- Hid. now apply user_kept_by_inc. }
  destruct H as [r| b Hemail Href | b referrer Hemail Href user
                | c ad u0 Hauth | c body u0 Hauth Hmin Hbal
                | c wid upd admin w Hadmin Hw]; simpl.
  - exists u. split; [exact Hfind|]. split; [apply same_identity_refl|].
    split; [apply Qle_refl|lia].
  - exists u. split; [now apply find_user_after_insert|].
    split; [apply same_identity_refl|]. split; [apply Qle_refl|lia].
  - destruct (Hinc (u_id referrer) REFERRAL_BONUS REFERRAL_BONUS 0%Z)
      as (u' & Hu' & Hrest); [unfold REFERRAL_BONUS; lra|lia|].
    exists u'. split; [|exact Hrest].
    unfold find_user_by_id. simpl. apply find_app_l. exact Hu'.
  - destruct (Hinc (u_id u0) REWARD_AMOUNT REWARD_AMOUNT 1%Z)
      as (u' & Hu' & Hrest); [unfold REWARD_AMOUNT; lra|lia|].
    exists u'. split; [exact Hu'|exact Hrest].
  - destruct (Hinc (u_id u0) (- wc_amount body) 0 0%Z)
      as (u' & Hu' & Hrest); [lra|lia|].
    exists u'. split; [exact Hu'|exact Hrest].
  - destruct (WithdrawalStatus_eqb _ _); simpl.
    + destruct (Hinc (wd_user_id w) (wd_amount w) 0 0%Z)
        as (u' & Hu' & Hrest); [lra|lia|].
      exists u'. split; [exact Hu'|exact Hrest].
    + exists u. split; [exact Hfind|]. split; [apply same_identity_refl|].
      split; [apply Qle_refl|lia].
Qed.

(** X8.  No request removes a user or touches who a user is: a user that
    an id designates is still designated by it after any request, with the
    same id, email, password hash, name, referral code, referrer,
    administrator flag and creation time; total_earned and ads_watched have
    not gone down. *)
Theorem user_persists e r d uid u :
  find_user_by_id uid d = Some u ->
  exists u',
    find_user_by_id uid (step e r d) = Some u'
    /\ same_identity u u'
    /\ total_earned u <= total_earned u'
    /\ (ads_watched u <= ads_watched u')%Z.
Proof.
  intros Hfind. rewrite step_replay.
  apply (journal_keeps_user e d r); [apply handle_journal|exact Hfind].
Qed.

Lemma user_persists_witness :
  exists u',
    find_user_by_id "bob-id"
      (step Scenario.env (POST_ads_watch Scenario.as_bob Scenario.video)
         Scenario.db) = Some u'
    /\ same_identity Scenario.bob u'
    /\ total_earned Scenario.bob <= total_earned u'
    /\ (ads_watched Scenario.bob <= ads_watched u')%Z.
Proof.
  apply (user_persists Scenario.env
           (POST_ads_watch Scenario.as_bob Scenario.video) Scenario.db
           "bob-id" Scenario.bob).
  reflexivity.
Defined.

Lemma journal_keeps_no_admin e d r ws :
  journal e d r ws -> no_admin d -> no_admin (replay d ws).
Proof.
  unfold no_admin. intros H Hn.
  assert (Hinc : forall uid db de da,
             Forall (fun u => is_admin u = false)
               (update_first (has_id uid) (inc_user db de da) (users d))).
  { intros. apply Forall_update_first; [exact Hn|]. intros x _ Hx. exact Hx. }
  destruct H; simpl.
  - exact Hn.
  - apply Forall_snoc; [exact Hn|reflexivity].
  - apply Forall_snoc; [apply Hinc|reflexivity].
  - apply Hinc.
  - apply Hinc.
  - destruct (WithdrawalStatus_eqb _ _); simpl; [apply Hinc|exact Hn].
Qed.

Lemma no_admin_refuses e r c d :
  no_admin d -> credentials_of r = Some c -> is_admin_route r = true ->
  exists err,
    run (handle e r) d = (Raise err, d)
    /\ (status_code err = 401 \/ status_code err = 403)%nat.
Proof.
  intros Hn Hc Hr.
  destruct (get_current_user c d) as [[u|err] ws] eqn:Hu.
  - apply get_current_user_inv in Hu as Hi. destruct Hi as (-> & _ & Hfind).
    assert (Ha : is_admin u = false).
    { unfold no_admin in Hn. rewrite Forall_forall in Hn. apply Hn.
      unfold find_user_by_id in Hfind. now apply find_some in Hfind as [Hin _]. }
    exists {| status_code := 403; detail := "Admin access required" |}.
    split; [|right; reflexivity].
    unfold run. erewrite (handle_dependency_fail e r c d); [reflexivity|exact Hc|].
    rewrite Hr. now apply get_admin_user_forbidden with u.
  - assert (Hfail : forall u, fst (get_current_user c d) <> Return u)
      by (intros u; rewrite Hu; discriminate).
    apply get_current_user_fail in Hfail.
    eexists. split.
    + unfold run.
      erewrite (handle_dependency_fail e r c d); [reflexivity|exact Hc|].
      rewrite Hr. apply get_admin_user_fail. exact Hfail.
    + left. reflexivity.
Qed.

(** X9.  No route makes an administrator: a database without
    administrators has none after any request.  So on every database the API
    can build from an empty one, each of the administrator's routes is
    refused, with 401 or 403, and changes nothing. *)
Theorem admin_never_granted d :
  (forall e r, no_admin d -> no_admin (step e r d))
  /\ (reachable d ->
      no_admin d
      /\ forall e r c,
           credentials_of r = Some c -> is_admin_route r = true ->
           exists err,
             run (handle e r) d = (Raise err, d)
             /\ (status_code err = 401 \/ status_code err = 403)%nat).
Proof.
  split.
  - intros e r Hn. rewrite step_replay.
    now apply (journal_keeps_no_admin e d r); [apply handle_journal|].
  - intros Hreach.
    assert (Hn : no_admin d).
    { induction Hreach as [|e r d _ IH]; [constructor|].
      rewrite step_replay.
      now apply (journal_keeps_no_admin e d r); [apply handle_journal|]. }
    split; [exact Hn|]. intros e r c. now apply no_admin_refuses.
Qed.

Lemma admin_never_granted_witness :
  let d := step Scenario.env (POST_auth_signup (Scenario.carol None)) empty_db in
  no_admin d
  /\ forall e r c,
       credentials_of r = Some c -> is_admin_route r = true ->
       exists err,
         run (handle e r) d = (Raise err, d)
         /\ (status_code err = 401 \/ status_code err = 403)%nat.
Proof.
  apply (admin_never_granted
           (step Scenario.env (POST_auth_signup (Scenario.carol None)) empty_db)).
  apply reachable_step. apply reachable_empty.
Defined.

(** ** What the routes keep of the withdrawals *)

Lemma same_request_refl w : same_request w w.
Proof. repeat split. Qed.

Lemma find_withdrawal_set_cases wid wid0 st at_ notes d w :
  find_withdrawal wid d = Some w ->
  find_withdrawal wid (apply_write d (withdrawals_set wid0 st at_ notes))
  = Some (if String.eqb wid0 wid then set_withdrawal st at_ notes w else w).
Proof.
  intros H. destruct (String.eqb_spec wid0 wid) as [->|Hne].
  - now apply find_withdrawal_after_set.
  - unfold find_withdrawal in *. simpl.
    rewrite find_update_first_other; [exact H|].
    intros x Hx. unfold has_wd_id in *. apply String.eqb_eq in Hx. simpl.
    rewrite Hx. split; apply String.eqb_neq; congruence.
Qed.

(** X10.  No request removes a withdrawal or rewrites what was asked: a
    withdrawal that an id designates is still designated by it after any
    request, with the same id, owner, amount, payment method, payment id and
    request time; and it is the very same document unless the request was
    the processing of that id. *)
Theorem withdrawal_persists e r d wid w :
  find_withdrawal wid d = Some w ->
  exists w',
    find_withdrawal wid (step e r d) = Some w'
    /\ same_request w w'
    /\ ((forall c upd, r <> PUT_admin_withdrawals c wid upd) -> w' = w).
Proof.
  intros Hfind. rewrite step_replay.
  pose proof (handle_journal e r d) as H.
  remember (snd (handle e r d)) as ws eqn:Hws. clear Hws.
  destruct H as [r| b Hemail Href | b referrer Hemail Href user
                | c ad u0 Hauth | c body u0 Hauth Hmin Hbal
                | c wid0 upd admin w0 Hadmin Hw]; simpl;
    try (exists w; split; [exact Hfind|split; [apply same_request_refl|reflexivity]]).
  - exists w. split; [|split; [apply same_request_refl|reflexivity]].
    unfold find_withdrawal in *. simpl. now apply find_app_l.
  - eexists. split.
    + unfold replay. rewrite fold_left_app. simpl.
      apply find_withdrawal_set_cases.
      destruct (WithdrawalStatus_eqb _ _); exact Hfind.
    + destruct (String.eqb_spec wid0 wid) as [->|Hne].
      * split; [repeat split|]. intros Hr. now destruct (Hr c upd).
      * split; [apply same_request_refl|reflexivity].
Qed.

Lemma withdrawal_persists_witness :
  exists w',
    find_withdrawal "wd-1"
      (step Scenario.env
         (PUT_admin_withdrawals Scenario.as_root "wd-2" (Scenario.decide REJECTED))
         Scenario.db) = Some w'
    /\ same_request Scenario.paid w'
    /\ ((forall c upd,
            PUT_admin_withdrawals Scenario.as_root "wd-2"
              (Scenario.decide REJECTED)
            <> PUT_admin_withdrawals c "wd-1" upd) -> w' = Scenario.paid).
Proof.
  apply (withdrawal_persists Scenario.env
           (PUT_admin_withdrawals Scenario.as_root "wd-2"
              (Scenario.decide REJECTED))
           Scenario.db "wd-1" Scenario.paid).
  reflexivity.
Defined.

(** X11.  Every request keeps the withdrawals well filed: if no
    withdrawal on file is for an amount below 10, and each one without a
    processing time is pending, the same holds afterwards: a request is
    filed only when its amount is not below 10 (the first guard), it is
    filed pending and unprocessed, and processing always stamps the time
    and never touches the amount. *)
Theorem withdrawals_stay_well_filed e r d :
  filed_well d -> filed_well (step e r d).
Proof.
  intros Hwf. rewrite step_replay.
  pose proof (handle_journal e r d) as H.
  remember (snd (handle e r d)) as ws eqn:Hws. clear Hws.
  unfold filed_well in *.
  destruct H as [r| b Hemail Href | b referrer Hemail Href user
                | c ad u0 Hauth | c body u0 Hauth Hmin Hbal
                | c wid0 upd admin w0 Hadmin Hw]; simpl; try exact Hwf.
  - apply Forall_snoc; [exact Hwf|]. simpl.
    split; [now apply Qle_not_lt|reflexivity].
  - unfold replay. rewrite fold_left_app. simpl.
    apply Forall_update_first.
    + destruct (WithdrawalStatus_eqb _ _); exact Hwf.
    + intros x _ [Hx _]. simpl. split; [exact Hx|discriminate].
Qed.

Lemma withdrawals_stay_well_filed_witness :
  filed_well
    (step Scenario.env
       (POST_withdrawals_request Scenario.as_alice (Scenario.withdraw 12))
       Scenario.db).
Proof.
  apply (withdrawals_stay_well_filed Scenario.env
           (POST_withdrawals_request Scenario.as_alice (Scenario.withdraw 12))
           Scenario.db).
  unfold filed_well. simpl.
  repeat constructor; simpl; try discriminate; unfold Qlt; simpl; lia.
Defined.

Lemma owner_kept e d r ws uid :
  journal e d r ws ->
  find_user_by_id uid d <> None -> find_user_by_id uid (replay d ws) <> None.
Proof.
  intros H Hu. destruct (find_user_by_id uid d) as [u|] eqn:Hfind; [|congruence].
  destruct (journal_keeps_user e d r ws uid u H Hfind) as (u' & -> & _).
  discriminate.
Qed.

Lemma journal_withdrawals_owners e d r ws :
  journal e d r ws ->
  Forall (fun w => find_user_by_id (wd_user_id w) d <> None) (withdrawals d) ->
  Forall (fun w => find_user_by_id (wd_user_id w) d <> None)
    (withdrawals (replay d ws)).
Proof.
  intros H Ho.
  destruct H as [r| b Hemail Href | b referrer Hemail Href user
                | c ad u0 Hauth | c body u0 Hauth Hmin Hbal
                | c wid0 upd admin w0 Hadmin Hw]; simpl; try exact Ho.
  - apply Forall_snoc; [exact Ho|]. simpl.
    apply get_current_user_inv in Hauth as (_ & _ & ->). discriminate.
  - unfold replay. rewrite fold_left_app. simpl.
    apply Forall_update_first.
    + destruct (WithdrawalStatus_eqb _ _); exact Ho.
    + intros x _ Hx. exact Hx.
Qed.

(** X12.  Every withdrawal on file belongs to a stored user, once this is
    so: no request breaks it, a request being filed under the id of the
    user who authenticated and no user ever being removed.  The join that
    get_all_withdrawals makes then finds, for each withdrawal on file, the
    name and the email of its owner; its "Unknown" is for a withdrawal whose
    owner is not on file. *)
Theorem withdrawals_keep_their_owners e r d :
  owners_on_file d ->
  owners_on_file (step e r d)
  /\ forall w,
       In w (withdrawals d) ->
       exists u,
         find_user_by_id (wd_user_id w) d = Some u
         /\ row_user_name (join_user d w) = full_name u
         /\ row_user_email (join_user d w) = email u.
Proof.
  intros Ho. split.
  - rewrite step_replay. pose proof (handle_journal e r d) as H.
    remember (snd (handle e r d)) as ws eqn:Hws. clear Hws.
    unfold owners_on_file.
    pose proof (journal_withdrawals_owners e d r ws H Ho) as Hw.
    rewrite Forall_forall in *. intros w Hin.
    apply (owner_kept e d r ws _ H). now apply Hw.
  - intros w Hin.
    unfold owners_on_file in Ho. rewrite Forall_forall in Ho.
    specialize (Ho w Hin). unfold join_user. simpl.
    destruct (find_user_by_id (wd_user_id w) d) as [u|]; [|congruence].
    exists u. auto.
Qed.

Lemma withdrawals_keep_their_owners_witness :
  owners_on_file
    (step Scenario.env
       (POST_withdrawals_request Scenario.as_alice (Scenario.withdraw 12))
       Scenario.db)
  /\ forall w,
       In w (withdrawals Scenario.db) ->
       exists u,
         find_user_by_id (wd_user_id w) Scenario.db = Some u
         /\ row_user_name (join_user Scenario.db w) = full_name u
         /\ row_user_email (join_user Scenario.db w) = email u.
Proof.
  apply (withdrawals_keep_their_owners Scenario.env
           (POST_withdrawals_request Scenario.as_alice (Scenario.withdraw 12))
           Scenario.db).
  unfold owners_on_file. simpl. repeat constructor; discriminate.
Defined.

(** ** Earnings and the transaction history *)

Lemma Qsum_snoc (l : list Q) x : Qsum (l ++ [x]) == Qsum l + x.
Proof.
  induction l as [|y l IH]; simpl; [lra|]. rewrite IH. lra.
Qed.

Lemma earned_inc uid db de da (l : list User) :
  Qsum (map total_earned (update_first (has_id uid) (inc_user db de da) l))
  == Qsum (map total_earned l)
     + match find (has_id uid) l with Some _ => de | None => 0 end.
Proof.
  induction l as [|y l IH]; simpl; [lra|].
  destruct (has_id uid y); simpl; [lra|]. rewrite IH. lra.
Qed.

Lemma watched_inc uid db de da (l : list User) :
  (fold_right Z.add 0 (map ads_watched (update_first (has_id uid) (inc_user db de da) l))
   = fold_right Z.add 0 (map ads_watched l)
     + match find (has_id uid) l with Some _ => da | None => 0 end)%Z.
Proof.
  induction l as [|y l IH]; simpl; [lia|].
  destruct (has_id uid y); simpl; [lia|]. rewrite IH. lia.
Qed.

Lemma Zsum_snoc (l : list Z) x :
  (fold_right Z.add 0 (l ++ [x]) = fold_right Z.add 0 l + x)%Z.
Proof. induction l as [|y l IH]; simpl; lia. Qed.

Lemma journal_earnings e d r ws :
  journal e d r ws ->
  earned (replay d ws) - earned d == credited (replay d ws) - credited d
  /\ (watched (replay d ws) - watched d
      = Z.of_nat (length (ad_watches (replay d ws)))
        - Z.of_nat (length (ad_watches d)))%Z.
Proof.
  unfold earned, credited, watched. intros H.
  destruct H as [r| b Hemail Href | b referrer Hemail Href user
                | c ad u0 Hauth | c body u0 Hauth Hmin Hbal
                | c wid0 upd admin w0 Hadmin Hw];
    cbn [replay fold_left apply_write users transactions ad_watches app];
    rewrite ?map_app; cbn [map].
  - split; [lra|lia].
  - pose proof (Qsum_snoc (map total_earned (users d))
                  (total_earned (new_user e b))) as Hq.
    rewrite Zsum_snoc. simpl in *. split; [lra|lia].
  - assert (Hin : In referrer (users d)).
    { unfold resolve_referral in Href.
      destruct (truthy (uc_referral_code b)); [|discriminate].
      now apply find_some in Href as [Hin _]. }
    destruct (find_user_by_id_exists d referrer Hin) as [holder Hholder].
    unfold find_user_by_id in Hholder.
    pose proof (earned_inc (u_id referrer) REFERRAL_BONUS REFERRAL_BONUS 0
                  (users d)) as Hinc.
    pose proof (Qsum_snoc
                  (map total_earned
                     (update_first (has_id (u_id referrer))
                        (inc_user REFERRAL_BONUS REFERRAL_BONUS 0) (users d)))
                  (total_earned user)) as Hq.
    pose proof (Qsum_snoc (map tx_amount (transactions d))
                  (tx_amount (referral_transaction e referrer user))) as Ht.
    rewrite Zsum_snoc, watched_inc. rewrite Hholder in *.
    simpl in *. split; [lra|lia].
  - apply get_current_user_inv in Hauth as (_ & _ & Hfind).
    unfold find_user_by_id in Hfind.
    pose proof (earned_inc (u_id u0) REWARD_AMOUNT REWARD_AMOUNT 1 (users d))
      as Hinc.
    pose proof (Qsum_snoc (map tx_amount (transactions d))
                  (tx_amount (ad_transaction e ad u0))) as Ht.
    rewrite watched_inc, length_app. rewrite Hfind in *.
    simpl in *. split; [lra|lia].
  - pose proof (earned_inc (u_id u0) (- wc_amount body) 0 0 (users d)) as Hinc.
    rewrite watched_inc.
    destruct (find (has_id (u_id u0)) (users d)); split; try lra; lia.
  - destruct (WithdrawalStatus_eqb _ _);
      cbn [replay fold_left apply_write users transactions ad_watches app].
    + pose proof (earned_inc (wd_user_id w0) (wd_amount w0) 0 0 (users d))
        as Hinc.
      rewrite watched_inc.
      destruct (find (has_id (wd_user_id w0)) (users d)); split; try lra; lia.
    + split; [lra|lia].
Qed.

(** X13.  The earnings follow the history: every request raises the sum of
    total_earned over the users by exactly the amounts of the transactions it
    appends, and the sum of ads_watched by exactly the number of ad watches it
    records.  On every database built from an empty one the total earned is
    therefore the total of the transactions, and the ads watched are as many
    as the ad watches on file. *)
Theorem earnings_match_history d :
  (forall e r,
      earned (step e r d) - earned d == credited (step e r d) - credited d
      /\ (watched (step e r d) - watched d
          = Z.of_nat (length (ad_watches (step e r d)))
            - Z.of_nat (length (ad_watches d)))%Z)
  /\ (reachable d ->
      earned d == credited d
      /\ watched d = Z.of_nat (length (ad_watches d))).
Proof.
  split.
  - intros e r. rewrite step_replay. apply (journal_earnings e d r).
    apply handle_journal.
  - induction 1 as [|e r d _ [IHq IHz]].
    + split; reflexivity.
    + rewrite step_replay.
      destruct (journal_earnings e d r _ (handle_journal e r d)) as [Hq Hz].
      split; [lra|lia].
Qed.

Lemma earnings_match_history_witness :
  let d := step Scenario.env' (POST_ads_watch (Payload (Some "3f2c9a1e-aaaa"))
                                 Scenario.video)
             (step Scenario.env (POST_auth_signup (Scenario.carol None))
                empty_db) in
  earned d == credited d /\ watched d = Z.of_nat (length (ad_watches d)).
Proof.
  apply (earnings_match_history
           (step Scenario.env' (POST_ads_watch (Payload (Some "3f2c9a1e-aaaa"))
                                  Scenario.video)
              (step Scenario.env (POST_auth_signup (Scenario.carol None))
                 empty_db))).
  apply reachable_step. apply reachable_step. apply reachable_empty.
Defined.

(** ** Requesting, then processing *)

Lemma get_current_user_users c d d' :
  users d' = users d -> get_current_user c d' = get_current_user c d.
Proof.
  intros H. destruct c as [| |[uid|]]; try reflexivity.
  unfold get_current_user, bind, read, find_user_by_id. simpl. rewrite H.
  destruct (find (has_id uid) (users d)); reflexivity.
Qed.

Lemma get_admin_user_users c d d' :
  users d' = users d -> get_admin_user c d' = get_admin_user c d.
Proof.
  intros H. unfold get_admin_user, bind.
  rewrite (get_current_user_users c d d' H).
  destruct (get_current_user c d) as [[u|x] ws]; [|reflexivity].
  destruct (is_admin u); reflexivity.
Qed.

Lemma get_current_user_found uid d u :
  find_user_by_id uid d = Some u ->
  get_current_user (Payload (Some uid)) d = (Return u, []).
Proof.
  intros H. unfold get_current_user, bind, read. simpl. now rewrite H.
Qed.

(** An administrator is still one after a wallet has moved. *)
Lemma get_admin_user_after_inc c d admin uid db de da :
  get_admin_user c d = (Return admin, []) ->
  exists admin',
    get_admin_user c (apply_write d (users_inc uid db de da))
    = (Return admin', []).
Proof.
  intros H. apply get_admin_user_return in H as [Hc Ha].
  apply get_current_user_inv in Hc as (_ & -> & Hfind).
  pose proof (find_user_inc_cases _ uid db de da _ _ Hfind) as Hf.
  unfold get_admin_user, bind.
  rewrite (get_current_user_found _ _ _ Hf).
  destruct (String.eqb uid (u_id admin)); eexists; simpl; rewrite Ha;
    reflexivity.
Qed.

Lemma handle_request_withdrawal e c body d u :
  get_current_user c d = (Return u, []) ->
  10 <= wc_amount body -> wc_amount body <= wallet_balance u ->
  step e (POST_withdrawals_request c body) d
  = replay d [users_inc (u_id u) (- wc_amount body) 0 0;
              withdrawals_insert (new_withdrawal e body u)].
Proof.
  intros Hauth Hmin Hbal. rewrite step_replay. f_equal.
  simpl. rewrite snd_fmap. unfold as_user.
  rewrite (Depends_ok _ _ _ _ Hauth).
  apply get_current_user_inv in Hauth as (_ & _ & Hfind).
  apply Qltb_ge in Hmin, Hbal.
  unfold request_withdrawal. unfold MINIMUM_WITHDRAWAL. rewrite Hmin.
  unfold bind, read. simpl. rewrite Hfind. simpl. now rewrite Hbal.
Qed.

Lemma handle_update_withdrawal e c wid upd d admin w :
  get_admin_user c d = (Return admin, []) ->
  find_withdrawal wid d = Some w ->
  step e (PUT_admin_withdrawals c wid upd) d
  = replay d
      ((if WithdrawalStatus_eqb (wu_status upd) REJECTED
        then [users_inc (wd_user_id w) (wd_amount w) 0 0] else [])
       ++ [withdrawals_set wid (wu_status upd) (isoformat (now e 0))
             (truthy (wu_admin_notes upd))]).
Proof.
  intros Hadmin Hfind. rewrite step_replay. f_equal.
  simpl. rewrite snd_fmap.
  rewrite (get_admin_user_route _ _ _ _ Hadmin).
  now rewrite (update_withdrawal_writes _ _ _ _ _ _ Hfind).
Qed.

(** On binary64 a debit followed by the refund of the same amount need not
    give the balance back, each sum being rounded: with 42.4 in the wallet
    and 10.3 asked (as the closest binary64 values) the wallet ends just
    under 42.4.  Ten refunds of 10.1 do not add up to 101. *)
Example binary64_refund_after_debit_rounds :
  let balance := 0x1.5333333333333p+5%float in
  let amount := 0x1.499999999999ap+3%float in
  Binary64.request_withdrawal balance amount
  = Binary64.accepted 0x1.00cccccccccccp+5%float
  /\ Binary64.refund 0x1.00cccccccccccp+5%float amount
     = 0x1.5333333333332p+5%float
  /\ (Binary64.refund 0x1.00cccccccccccp+5%float amount <? balance)%float = true
  /\ (Nat.iter 10 (fun b => Binary64.refund b 0x1.4333333333333p+3%float)
        0%float
      <? 101)%float = true.
Proof. repeat split. Qed.

(** X14.  A withdrawal that is accepted and then rejected is refunded to
    the user who was debited, by the amount that was debited: when the id
    the request was filed under is not the id of an older request, after
    the administrator rejects that id the caller's wallet_balance is the
    starting balance with the two increments applied in turn, minus the
    amount and then plus the amount, the other fields of the caller are as
    they were, and the request is on file as rejected with the amount
    asked.  (On numbers that is the starting balance; on binary64 each of
    the two sums is rounded, see [binary64_refund_after_debit_rounds].) *)
Theorem request_then_reject_refunds e e' c ca body notes d u admin :
  get_current_user c d = (Return u, []) ->
  get_admin_user ca d = (Return admin, []) ->
  10 <= wc_amount body ->
  wc_amount body <= wallet_balance u ->
  find_withdrawal (uuid4 e 0) d = None ->
  let d1 := step e (POST_withdrawals_request c body) d in
  let d2 := step e' (PUT_admin_withdrawals ca (uuid4 e 0)
                       {| wu_status := REJECTED; wu_admin_notes := notes |}) d1 in
  exists u2 w2,
    find_user_by_id (u_id u) d2 = Some u2
    /\ wallet_balance u2 = (wallet_balance u + - wc_amount body) + wc_amount body
    /\ same_identity u u2
    /\ find_withdrawal (uuid4 e 0) d2 = Some w2
    /\ wd_status w2 = REJECTED
    /\ wd_user_id w2 = u_id u
    /\ wd_amount w2 = wc_amount body.
Proof.
  intros Hauth Hadmin Hmin Hbal Hfresh d1 d2.
  pose proof (handle_request_withdrawal e c body d u Hauth Hmin Hbal) as H1.
  fold d1 in H1. cbn [replay fold_left] in H1.
  set (w := new_withdrawal e body u) in *.
  set (d0 := apply_write d (users_inc (u_id u) (- wc_amount body) 0 0)) in *.
  apply get_current_user_inv in Hauth as (_ & _ & Hfind).
  assert (Hw1 : find_withdrawal (uuid4 e 0) d1 = Some w).
  { rewrite H1. unfold find_withdrawal in *. simpl. rewrite find_app_r by exact Hfresh.
    simpl. unfold has_wd_id. simpl. now rewrite String.eqb_refl. }
  assert (Hu1 : find_user_by_id (u_id u) d1
                = Some (inc_user (- wc_amount body) 0 0 u)).
  { rewrite H1. change (find_user_by_id (u_id u) d0 = Some (inc_user (- wc_amount body) 0 0 u)).
    now apply find_user_after_inc. }
  destruct (get_admin_user_after_inc ca d admin (u_id u) (- wc_amount body) 0 0 Hadmin)
    as [admin1 Hadmin1].
  assert (Hadmin1' : get_admin_user ca d1 = (Return admin1, [])).
  { rewrite <- Hadmin1. apply get_admin_user_users. now rewrite H1. }
  pose proof (handle_update_withdrawal e' ca (uuid4 e 0)
                {| wu_status := REJECTED; wu_admin_notes := notes |}
                d1 admin1 w Hadmin1' Hw1) as H2.
  fold d2 in H2. cbn [wu_status WithdrawalStatus_eqb app replay fold_left] in H2.
  exists (inc_user (wc_amount body) 0 0 (inc_user (- wc_amount body) 0 0 u)),
    (set_withdrawal REJECTED (isoformat (now e' 0)) (truthy notes) w).
  split.
  { rewrite H2.
    change (find_user_by_id (u_id u)
              (apply_write d1 (users_inc (u_id u) (wc_amount body) 0 0))
            = Some (inc_user (wc_amount body) 0 0
                      (inc_user (- wc_amount body) 0 0 u))).
    now apply find_user_after_inc. }
  split; [reflexivity|].
  split; [repeat split|].
  split; [|repeat split].
  rewrite H2. apply find_withdrawal_after_set.
  unfold find_withdrawal in *. exact Hw1.
Qed.

Lemma request_then_reject_refunds_witness :
  let d1 := step Scenario.env
              (POST_withdrawals_request Scenario.as_alice (Scenario.withdraw 12))
              Scenario.db in
  let d2 := step Scenario.env'
              (PUT_admin_withdrawals Scenario.as_root "3f2c9a1e-aaaa"
                 {| wu_status := REJECTED; wu_admin_notes := Some "no" |}) d1 in
  exists u2 w2,
    find_user_by_id "alice-id" d2 = Some u2
    /\ wallet_balance u2 = (wallet_balance Scenario.alice + - (12)) + 12
    /\ same_identity Scenario.alice u2
    /\ find_withdrawal "3f2c9a1e-aaaa" d2 = Some w2
    /\ wd_status w2 = REJECTED
    /\ wd_user_id w2 = "alice-id"
    /\ wd_amount w2 = 12.
Proof.
  apply (request_then_reject_refunds Scenario.env Scenario.env'
           Scenario.as_alice Scenario.as_root (Scenario.withdraw 12)
           (Some "no") Scenario.db Scenario.alice Scenario.root).
  - reflexivity.
  - reflexivity.
  - simpl. unfold Qle. simpl. lia.
  - simpl. unfold Qle. simpl. lia.
  - reflexivity.
Defined.

(** X15.  Processing by an administrator answers 404 "Withdrawal request
    not found" and changes nothing when no withdrawal has the id, whatever
    the new status.  On a withdrawal that is on file, a note that is given
    and not empty replaces the note on file; without a note, or with an
    empty one, the note on file stays. *)
Theorem update_withdrawal_edges e c wid upd d admin :
  get_admin_user c d = (Return admin, []) ->
  (find_withdrawal wid d = None ->
   run (as_admin c (update_withdrawal e wid upd)) d
   = (Raise {| status_code := 404; detail := "Withdrawal request not found" |}, d))
  /\
  (forall w,
      find_withdrawal wid d = Some w ->
      exists w',
        find_withdrawal wid (step e (PUT_admin_withdrawals c wid upd) d) = Some w'
        /\ wd_admin_notes w'
           = match wu_admin_notes upd with
             | Some (String a n) => Some (String a n)
             | _ => wd_admin_notes w
             end).
Proof.
  intros Hadmin. split.
  - intros Hnone. unfold run.
    rewrite (get_admin_user_route _ _ _ _ Hadmin).
    unfold update_withdrawal, bind, read. simpl. now rewrite Hnone.
  - intros w Hfind.
    rewrite (handle_update_withdrawal e c wid upd d admin w Hadmin Hfind).
    eexists. split.
    + unfold replay. rewrite fold_left_app. simpl.
      apply find_withdrawal_after_set.
      destruct (WithdrawalStatus_eqb _ _); exact Hfind.
    + simpl. destruct (wu_admin_notes upd) as [[|a n]|]; reflexivity.
Qed.

Lemma update_withdrawal_edges_witness :
  run (as_admin Scenario.as_root
         (update_withdrawal Scenario.env "wd-9" (Scenario.decide REJECTED)))
      Scenario.db
  = (Raise {| status_code := 404; detail := "Withdrawal request not found" |},
     Scenario.db)
  /\
  exists w',
    find_withdrawal "wd-1"
      (step Scenario.env
         (PUT_admin_withdrawals Scenario.as_root "wd-1"
            {| wu_status := APPROVED; wu_admin_notes := Some "" |})
         Scenario.db) = Some w'
    /\ wd_admin_notes w' = Some "paid".
Proof.
  split.
  - apply (update_withdrawal_edges Scenario.env Scenario.as_root "wd-9"
             (Scenario.decide REJECTED) Scenario.db Scenario.root);
      reflexivity.
  - apply (update_withdrawal_edges Scenario.env Scenario.as_root "wd-1"
             {| wu_status := APPROVED; wu_admin_notes := Some "" |}
             Scenario.db Scenario.root eq_refl)
      with (w := Scenario.paid).
    reflexivity.
Defined.

(** ** A referral code, from signup to signup *)

Lemma truthy_nonempty c : c <> "" -> truthy (Some c) = Some c.
Proof. destruct c; [congruence|reflexivity]. Qed.

(** X16.  The code a signup hands out works: when it is not empty and no
    older user carries it, and the new user's id is not the id of an older
    user, a later signup (with another, free email) that cites the code is
    answered after crediting the first user with exactly 5.0 on
    wallet_balance and total_earned, and stores its own user with
    referred_by at the first user's id and an empty wallet. *)
Theorem referral_code_round_trip e e' a b d :
  find_user_by_email (uc_email a) d = None ->
  find_user_by_id (uuid4 e 0) d = None ->
  let first := signed_up e a d in
  referral_code first <> "" ->
  find_user_by_referral_code (referral_code first) d = None ->
  uc_referral_code b = Some (referral_code first) ->
  find_user_by_email (uc_email b) d = None ->
  uc_email b <> uc_email a ->
  let d1 := step e (POST_auth_signup a) d in
  let d2 := step e' (POST_auth_signup b) d1 in
  exists second,
    find_user_by_id (u_id first) d2 = Some (inc_user 5 5 0 first)
    /\ wallet_balance (inc_user 5 5 0 first) == 5
    /\ total_earned (inc_user 5 5 0 first) == 5
    /\ fst (run (signup e' b) d1)
       = Return (create_jwt_token (uuid4 e' 0) (uc_email b), user_response second)
    /\ In second (users d2)
    /\ referred_by second = Some (u_id first)
    /\ wallet_balance second = 0.
Proof.
  intros Hemail Hfresh first Hcode Hnocode Hcites Hemailb Hneq d1 d2.
  destruct (signed_up_fields e a d) as (Hid & Hmail & _ & _ & Hbal & _).
  fold first in Hid, Hmail, Hbal.
  assert (Hres : resolve_referral (uc_referral_code b) d1 = Some first).
  { rewrite Hcites. unfold resolve_referral. rewrite (truthy_nonempty _ Hcode).
    unfold find_user_by_referral_code. apply find_after_signup; auto.
    unfold has_referral_code. apply String.eqb_refl. }
  assert (Hfirst1 : find_user_by_id (u_id first) d1 = Some first).
  { rewrite Hid. unfold find_user_by_id. apply find_after_signup; auto.
    unfold has_id. fold first. rewrite Hid. apply String.eqb_refl. }
  assert (Hemailb1 : find_user_by_email (uc_email b) d1 = None).
  { unfold find_user_by_email, d1.
    destruct (signup_users e a d Hemail) as [_ ->].
    rewrite find_app_r.
    - simpl. fold first. unfold has_email. rewrite Hmail.
      destruct (String.eqb_spec (uc_email a) (uc_email b)); congruence.
    - destruct (resolve_referral (uc_referral_code a) d); [|exact Hemailb].
      apply find_update_first_none; [reflexivity|exact Hemailb]. }
  destruct (signup_users e' b d1 Hemailb1) as [Hrun Husers].
  fold d2 in Hrun, Husers. rewrite Hres in Husers.
  assert (Hsecond : signed_up e' b d1
                    = set_referred_by (u_id first) (new_user e' b)).
  { unfold signed_up. now rewrite Hres. }
  exists (signed_up e' b d1).
  split.
  { unfold find_user_by_id. rewrite Husers. apply find_app_l.
    apply (find_user_after_inc (u_id first) REFERRAL_BONUS REFERRAL_BONUS 0 d1).
    exact Hfirst1. }
  split; [simpl; rewrite Hbal; reflexivity|].
  split.
  { simpl. unfold first, signed_up.
    destruct (resolve_referral (uc_referral_code a) d); reflexivity. }
  split; [now rewrite Hrun|].
  split; [rewrite Husers; apply in_or_app; right; now left|].
  rewrite Hsecond. split; reflexivity.
Qed.

Lemma referral_code_round_trip_witness :
  let a := Scenario.carol None in
  let b := {| uc_email := "dave@example.com"; uc_password := "dave";
              uc_full_name := "Dave"; uc_referral_code := Some "7B1D44C0" |} in
  let first := signed_up Scenario.env a Scenario.db in
  let d1 := step Scenario.env (POST_auth_signup a) Scenario.db in
  let d2 := step Scenario.env' (POST_auth_signup b) d1 in
  exists second,
    find_user_by_id (u_id first) d2 = Some (inc_user 5 5 0 first)
    /\ wallet_balance (inc_user 5 5 0 first) == 5
    /\ total_earned (inc_user 5 5 0 first) == 5
    /\ fst (run (signup Scenario.env' b) d1)
       = Return (create_jwt_token "d4e5f6a7-dddd" "dave@example.com",
                 user_response second)
    /\ In second (users d2)
    /\ referred_by second = Some (u_id first)
    /\ wallet_balance second = 0.
Proof.
  apply (referral_code_round_trip Scenario.env Scenario.env'
           (Scenario.carol None)
           {| uc_email := "dave@example.com"; uc_password := "dave";
              uc_full_name := "Dave"; uc_referral_code := Some "7B1D44C0" |}
           Scenario.db); try reflexivity; discriminate.
Defined.

(** ** What a caller gets to see *)

Lemma to_list_all {A} (l : list A) : (length l <= 100)%nat -> to_list 100 l = l.
Proof. intros H. unfold to_list. now apply firstn_all2. Qed.

(** X17.  The listings of a caller hold the caller's own documents only:
    every transaction and every withdrawal listed is on file and carries
    the caller's id; and when the caller has no more than 100 of them on
    file, each one is listed. *)
Theorem listings_show_own_documents c d u :
  get_current_user c d = (Return u, []) ->
  exists txs wds,
    as_user c get_transactions d = (Return txs, [])
    /\ as_user c get_my_withdrawals d = (Return wds, [])
    /\ (forall t, In t txs -> In t (transactions d) /\ tx_user_id t = u_id u)
    /\ (forall w, In w wds -> In w (withdrawals d) /\ wd_user_id w = u_id u)
    /\ ((length (filter (fun t => String.eqb (tx_user_id t) (u_id u))
                   (transactions d)) <= 100)%nat ->
        forall t, In t (transactions d) -> tx_user_id t = u_id u -> In t txs)
    /\ ((length (filter (fun w => String.eqb (wd_user_id w) (u_id u))
                   (withdrawals d)) <= 100)%nat ->
        forall w, In w (withdrawals d) -> wd_user_id w = u_id u -> In w wds).
Proof.
  intros Hauth. eexists _, _.
  split; [unfold as_user; rewrite (Depends_ok _ _ _ _ Hauth); reflexivity|].
  split; [unfold as_user; rewrite (Depends_ok _ _ _ _ Hauth); reflexivity|].
  split; [|split; [|split]].
  - intros t Hin.
    destruct (to_list_sort_desc_first_page tx_created_at
                (filter (fun t => String.eqb (tx_user_id t) (u_id u))
                   (transactions d))) as (_ & _ & _ & rest & Hperm & _).
    assert (Hall : In _ (_ ++ rest)) by (apply in_or_app; left; exact Hin).
    apply (Permutation_in _ Hperm) in Hall.
    apply filter_In in Hall as [Hfile Hid]. split; [exact Hfile|].
    now apply String.eqb_eq.
  - intros w Hin.
    destruct (to_list_sort_desc_first_page wd_requested_at
                (filter (fun w => String.eqb (wd_user_id w) (u_id u))
                   (withdrawals d))) as (_ & _ & _ & rest & Hperm & _).
    assert (Hall : In _ (_ ++ rest)) by (apply in_or_app; left; exact Hin).
    apply (Permutation_in _ Hperm) in Hall.
    apply filter_In in Hall as [Hfile Hid]. split; [exact Hfile|].
    now apply String.eqb_eq.
  - intros Hfew t Hin Hid.
    rewrite to_list_all
      by now rewrite (Permutation_length (sort_desc_perm tx_created_at _)).
    apply (Permutation_in _ (Permutation_sym (sort_desc_perm tx_created_at _))).
    apply filter_In. split; [exact Hin|]. now apply String.eqb_eq.
  - intros Hfew w Hin Hid.
    rewrite to_list_all
      by now rewrite (Permutation_length (sort_desc_perm wd_requested_at _)).
    apply (Permutation_in _ (Permutation_sym (sort_desc_perm wd_requested_at _))).
    apply filter_In. split; [exact Hin|]. now apply String.eqb_eq.
Qed.

Lemma listings_show_own_documents_witness :
  exists txs wds,
    as_user Scenario.as_bob get_transactions Scenario.db = (Return txs, [])
    /\ as_user Scenario.as_bob get_my_withdrawals Scenario.db = (Return wds, [])
    /\ (forall t, In t txs ->
          In t (transactions Scenario.db) /\ tx_user_id t = "bob-id")
    /\ (forall w, In w wds ->
          In w (withdrawals Scenario.db) /\ wd_user_id w = "bob-id")
    /\ ((length (filter (fun t => String.eqb (tx_user_id t) "bob-id")
                   (transactions Scenario.db)) <= 100)%nat ->
        forall t, In t (transactions Scenario.db) ->
                  tx_user_id t = "bob-id" -> In t txs)
    /\ ((length (filter (fun w => String.eqb (wd_user_id w) "bob-id")
                   (withdrawals Scenario.db)) <= 100)%nat ->
        forall w, In w (withdrawals Scenario.db) ->
                  wd_user_id w = "bob-id" -> In w wds).
Proof.
  apply (listings_show_own_documents Scenario.as_bob Scenario.db Scenario.bob).
  reflexivity.
Defined.

(** ** Counting what is on file *)

Lemma update_first_length {A} (p : A -> bool) (f : A -> A) (l : list A) :
  length (update_first p f l) = length l.
Proof.
  induction l as [|y l IH]; simpl; [reflexivity|].
  destruct (p y); simpl; auto.
Qed.

Lemma journal_lengths e d r ws :
  journal e d r ws ->
  let d' := replay d ws in
  (length (users d) <= length (users d') <= S (length (users d))
   /\ length (ad_watches d) <= length (ad_watches d') <= S (length (ad_watches d))
   /\ length (transactions d) <= length (transactions d')
      <= S (length (transactions d))
   /\ length (withdrawals d) <= length (withdrawals d')
      <= S (length (withdrawals d)))%nat.
Proof.
  intros H.
  destruct H as [r| b Hemail Href | b referrer Hemail Href user
                | c ad u0 Hauth | c body u0 Hauth Hmin Hbal
                | c wid0 upd admin w0 Hadmin Hw];
    cbn [replay fold_left apply_write users transactions ad_watches withdrawals];
    rewrite ?length_app, ?update_first_length; simpl; try lia.
  destruct (WithdrawalStatus_eqb _ _);
    cbn [replay fold_left apply_write users transactions ad_watches withdrawals app];
    rewrite ?update_first_length; lia.
Qed.

Lemma journal_keeps_admin e d r ws c admin :
  journal e d r ws ->
  get_admin_user c d = (Return admin, []) ->
  exists admin', get_admin_user c (replay d ws) = (Return admin', []).
Proof.
  intros H Hadmin. apply get_admin_user_return in Hadmin as [Hc Ha].
  apply get_current_user_inv in Hc as (_ & -> & Hfind).
  destruct (journal_keeps_user e d r ws _ _ H Hfind)
    as (admin' & Hfind' & Hsame & _).
  destruct Hsame as (_ & _ & _ & _ & _ & _ & Hadm & _).
  exists admin'. unfold get_admin_user, bind.
  rewrite (get_current_user_found _ _ _ Hfind'). simpl.
  rewrite Hadm, Ha. reflexivity.
Qed.

Lemma filter_length_le {A} (p : A -> bool) (l : list A) :
  (length (filter p l) <= length l)%nat.
Proof.
  induction l as [|y l IH]; simpl; [lia|]. destruct (p y); simpl; lia.
Qed.

(** X18.  No request removes a document: after any request every
    collection holds as many documents as before or one more.  The
    statistics an administrator reads are these counts, before and after any
    request: the totals of users, withdrawals and ad watches never go down
    and grow by one at most, and the pending withdrawals are never more
    than the withdrawals. *)
Theorem statistics_only_grow e r c d admin :
  get_admin_user c d = (Return admin, []) ->
  exists st st',
    as_admin c get_admin_stats d = (Return st, [])
    /\ as_admin c get_admin_stats (step e r d) = (Return st', [])
    /\ total_users st = length (users d)
    /\ total_withdrawals st = length (withdrawals d)
    /\ total_ads_watched st = length (ad_watches d)
    /\ (pending_withdrawals st <= total_withdrawals st)%nat
    /\ (pending_withdrawals st' <= total_withdrawals st')%nat
    /\ (total_users st <= total_users st' <= S (total_users st))%nat
    /\ (total_withdrawals st <= total_withdrawals st'
        <= S (total_withdrawals st))%nat
    /\ (total_ads_watched st <= total_ads_watched st'
        <= S (total_ads_watched st))%nat
    /\ (length (transactions d) <= length (transactions (step e r d))
        <= S (length (transactions d)))%nat.
Proof.
  intros Hadmin.
  pose proof (handle_journal e r d) as H.
  destruct (journal_keeps_admin e d r _ c admin H Hadmin) as [admin' Hadmin'].
  destruct (journal_lengths e d r _ H) as (Hu & Ha & Ht & Hw).
  rewrite <- step_replay in *.
  eexists _, _.
  split; [unfold as_admin; rewrite (Depends_ok _ _ _ _ Hadmin); reflexivity|].
  split; [unfold as_admin; rewrite (Depends_ok _ _ _ _ Hadmin'); reflexivity|].
  simpl. repeat split; try lia; apply filter_length_le.
Qed.

Lemma statistics_only_grow_witness :
  exists st st',
    as_admin Scenario.as_root get_admin_stats Scenario.db = (Return st, [])
    /\ as_admin Scenario.as_root get_admin_stats
         (step Scenario.env (POST_auth_signup (Scenario.carol None)) Scenario.db)
       = (Return st', [])
    /\ total_users st = length (users Scenario.db)
    /\ total_withdrawals st = length (withdrawals Scenario.db)
    /\ total_ads_watched st = length (ad_watches Scenario.db)
    /\ (pending_withdrawals st <= total_withdrawals st)%nat
    /\ (pending_withdrawals st' <= total_withdrawals st')%nat
    /\ (total_users st <= total_users st' <= S (total_users st))%nat
    /\ (total_withdrawals st <= total_withdrawals st'
        <= S (total_withdrawals st))%nat
    /\ (total_ads_watched st <= total_ads_watched st'
        <= S (total_ads_watched st))%nat
    /\ (length (transactions Scenario.db)
        <= length (transactions
                     (step Scenario.env (POST_auth_signup (Scenario.carol None))
                        Scenario.db))
        <= S (length (transactions Scenario.db)))%nat.
Proof.
  apply (statistics_only_grow Scenario.env
           (POST_auth_signup (Scenario.carol None)) Scenario.as_root
           Scenario.db Scenario.root).
  reflexivity.
Defined.

(** ** Rejecting again and again *)

(** X19.  Every rejection pays: when an administrator rejects the same
    withdrawal n times in a row, the owner's wallet_balance has received
    the recorded amount n times, one increment per rejection. *)
Theorem repeated_rejection_pays_each_time c wid upd es :
  wu_status upd = REJECTED ->
  forall d admin w owner,
    get_admin_user c d = (Return admin, []) ->
    find_withdrawal wid d = Some w ->
    find_user_by_id (wd_user_id w) d = Some owner ->
    exists owner',
      find_user_by_id (wd_user_id w)
        (serve (map (fun e => (e, PUT_admin_withdrawals c wid upd)) es) d)
      = Some owner'
      /\ wallet_balance owner'
         = Nat.iter (length es) (fun balance => balance + wd_amount w)
             (wallet_balance owner).
Proof.
  intros Hrej. induction es as [|e es IH]; intros d admin w owner Hadmin Hw Ho.
  - exists owner. split; [exact Ho|reflexivity].
  - cbn [map serve fold_left fst snd].
    rewrite (handle_update_withdrawal e c wid upd d admin w Hadmin Hw).
    rewrite Hrej. cbn [WithdrawalStatus_eqb app replay fold_left].
    set (d1 := apply_write d (users_inc (wd_user_id w) (wd_amount w) 0 0)).
    set (d2 := apply_write d1 (withdrawals_set wid REJECTED (isoformat (now e 0))
                                 (truthy (wu_admin_notes upd)))).
    destruct (get_admin_user_after_inc c d admin (wd_user_id w) (wd_amount w) 0 0
                Hadmin) as [admin1 Hadmin1].
    assert (Hadmin2 : get_admin_user c d2 = (Return admin1, []))
      by (rewrite <- Hadmin1; now apply get_admin_user_users).
    assert (Hw2 : find_withdrawal wid d2
                  = Some (set_withdrawal REJECTED (isoformat (now e 0))
                            (truthy (wu_admin_notes upd)) w))
      by now apply find_withdrawal_after_set.
    assert (Ho2 : find_user_by_id (wd_user_id w) d2
                  = Some (inc_user (wd_amount w) 0 0 owner))
      by exact (find_user_after_inc _ _ _ _ _ _ Ho).
    destruct (IH d2 admin1 _ _ Hadmin2 Hw2 Ho2) as (owner' & Hfind & Hbal).
    exists owner'. split; [exact Hfind|].
    rewrite Hbal. cbn [length]. rewrite Nat.iter_succ_r. reflexivity.
Qed.

Lemma repeated_rejection_pays_each_time_witness :
  exists owner',
    find_user_by_id "bob-id"
      (serve (map (fun e => (e, PUT_admin_withdrawals Scenario.as_root "wd-2"
                                  (Scenario.decide REJECTED)))
                [Scenario.env; Scenario.env'; Scenario.env])
         Scenario.db) = Some owner'
    /\ wallet_balance owner' = ((wallet_balance Scenario.bob + 10) + 10) + 10.
Proof.
  apply (repeated_rejection_pays_each_time Scenario.as_root "wd-2"
           (Scenario.decide REJECTED)
           [Scenario.env; Scenario.env'; Scenario.env] eq_refl
           Scenario.db Scenario.root Scenario.waiting Scenario.bob);
    reflexivity.
Defined.

(** ** The shape of a referral code *)

Lemma substring_0_length m : forall s, String.length (substring 0 m s) = Nat.min m (String.length s).
Proof.
  induction m as [|m IH]; intros [|c s]; simpl; auto.
Qed.

Lemma upper_length s : String.length (upper s) = String.length s.
Proof. induction s as [|c s IH]; simpl; auto. Qed.

Lemma upper_char_idempotent c : upper_char (upper_char c) = upper_char c.
Proof.
  unfold upper_char. cbn zeta.
  destruct ((97 <=? nat_of_ascii c)%nat && (nat_of_ascii c <=? 122)%nat) eqn:Hlow;
    [|now rewrite Hlow].
  apply andb_true_iff in Hlow as [Hlo Hhi].
  apply Nat.leb_le in Hlo, Hhi.
  rewrite nat_ascii_embedding by lia.
  replace (97 <=? nat_of_ascii c - 32)%nat with false
    by (symmetry; apply Nat.leb_gt; lia).
  reflexivity.
Qed.

Lemma upper_idempotent s : upper (upper s) = upper s.
Proof.
  induction s as [|c s IH]; simpl; [reflexivity|].
  now rewrite upper_char_idempotent, IH.
Qed.

(** X20.  The referral code a signup gives its user is made of the first
    eight characters of a fresh uuid, eight characters whenever the uuid
    has that many, and is in upper case already: upper-casing it again
    changes nothing.  This holds whether or not the signup itself cited a
    referral code. *)
Theorem referral_code_shape e b d :
  let code := referral_code (signed_up e b d) in
  String.length code = Nat.min 8 (String.length (uuid4 e 1))
  /\ upper code = code
  /\ ((8 <= String.length (uuid4 e 1))%nat -> String.length code = 8%nat /\ code <> "").
Proof.
  destruct (signed_up_fields e b d) as (_ & _ & _ & Hcode & _).
  cbn zeta. rewrite Hcode.
  assert (Hlen : String.length (upper (substring 0 8 (uuid4 e 1)))
                 = Nat.min 8 (String.length (uuid4 e 1)))
    by now rewrite upper_length, substring_0_length.
  split; [exact Hlen|]. split; [apply upper_idempotent|].
  intros H8. rewrite Nat.min_l in Hlen by exact H8.
  split; [exact Hlen|].
  intros Hempty. rewrite Hempty in Hlen. discriminate Hlen.
Qed.

Lemma referral_code_shape_witness :
  let code := referral_code
                (signed_up Scenario.env (Scenario.carol None) Scenario.db) in
  String.length code = 8%nat /\ code <> "".
Proof.
  apply (referral_code_shape Scenario.env (Scenario.carol None) Scenario.db).
  simpl. lia.
Defined.

(** ** Documents on their way to and from the store *)

Lemma prepare_item_idempotent item :
  prepare_item (prepare_item item) = prepare_item item.
Proof. destruct item as [k []]; reflexivity. Qed.

(** X21.  prepare_for_mongo turns the datetimes that are values of the
    dictionary itself into their ISO strings and leaves everything else as
    it is: the keys and their order, every value that is not a datetime
    (a dictionary inside, with whatever it holds, included) and anything
    that is not a dictionary.  Afterwards no value of the dictionary is a
    datetime, and preparing again changes nothing. *)
Theorem prepare_for_mongo_converts_datetimes data :
  prepare_for_mongo (prepare_for_mongo data) = prepare_for_mongo data
  /\ ((forall items, data <> VDict items) -> prepare_for_mongo data = data)
  /\ (forall items,
         data = VDict items ->
         exists items',
           prepare_for_mongo data = VDict items'
           /\ map fst items' = map fst items
           /\ (forall k t, ~ In (k, VDatetime t) items')
           /\ (forall k t, In (k, VDatetime t) items ->
                           In (k, VStr (isoformat t)) items')
           /\ (forall k v, In (k, v) items -> (forall t, v <> VDatetime t) ->
                           In (k, v) items')).
Proof.
  split; [|split].
  - destruct data; try reflexivity. simpl. rewrite map_map. f_equal.
    apply map_ext. apply prepare_item_idempotent.
  - intros Hnot. destruct data; try reflexivity. now destruct (Hnot items).
  - intros items ->. exists (map prepare_item items).
    split; [reflexivity|]. split.
    { rewrite map_map. apply map_ext. intros [k []]; reflexivity. }
    split.
    { intros k t Hin. apply in_map_iff in Hin as ([k0 v0] & Heq & _).
      destruct v0; discriminate Heq. }
    split.
    { intros k t Hin. apply in_map_iff. exists (k, VDatetime t). auto. }
    intros k v Hin Hnot. apply in_map_iff. exists (k, v). split; [|exact Hin].
    destruct v; try reflexivity. now destruct (Hnot t).
Qed.

Lemma prepare_for_mongo_converts_datetimes_witness :
  prepare_for_mongo (VInt 3) = VInt 3
  /\ exists items',
       prepare_for_mongo Scenario.bonus_dict = VDict items'
       /\ map fst items'
          = ["id"; "user_id"; "type"; "amount"; "description"; "created_at"]
       /\ (forall k t, ~ In (k, VDatetime t) items')
       /\ (forall k t,
              In (k, VDatetime t)
                [("id", VStr "tx-1"); ("user_id", VStr "alice-id");
                 ("type", VStr "referral_bonus"); ("amount", VFloat 5);
                 ("description", VStr "Referral bonus for inviting Bob");
                 ("created_at", VDatetime (Scenario.clock 0))] ->
              In (k, VStr (isoformat t)) items')
       /\ (forall k v,
              In (k, v)
                [("id", VStr "tx-1"); ("user_id", VStr "alice-id");
                 ("type", VStr "referral_bonus"); ("amount", VFloat 5);
                 ("description", VStr "Referral bonus for inviting Bob");
                 ("created_at", VDatetime (Scenario.clock 0))] ->
              (forall t, v <> VDatetime t) -> In (k, v) items').
Proof.
  split.
  - apply (prepare_for_mongo_converts_datetimes (VInt 3)). discriminate.
  - exact (proj2 (proj2 (prepare_for_mongo_converts_datetimes
                           Scenario.bonus_dict)) _ eq_refl).
Defined.

Lemma replace_Z_app a b :
  replace_Z (a ++ b) = (replace_Z a ++ replace_Z b)%string.
Proof.
  induction a as [|c a IH]; simpl; [reflexivity|].
  destruct (Ascii.eqb c "Z"); simpl; now rewrite IH.
Qed.

Lemma digit_not_Z n : Ascii.eqb (digit n) "Z" = false.
Proof.
  apply Ascii.eqb_neq. intros H.
  apply (f_equal N_of_ascii) in H. unfold digit in H.
  pose proof (N.mod_upper_bound n 10 ltac:(lia)) as Hn.
  rewrite N_ascii_embedding in H by lia.
  change (N_of_ascii "Z") with 90%N in H. lia.
Qed.

Lemma replace_Z_pad w : forall n, replace_Z (pad w n) = pad w n.
Proof.
  induction w as [|w IH]; intros n; simpl; [reflexivity|].
  rewrite replace_Z_app, IH. simpl. now rewrite digit_not_Z.
Qed.

(** An ISO timestamp holds no "Z": the replacement leaves it alone. *)
Lemma replace_Z_isoformat t : replace_Z (isoformat t) = isoformat t.
Proof.
  unfold isoformat.
  destruct (N.eqb (microsecond t) 0);
    repeat (rewrite replace_Z_app, ?replace_Z_pad); reflexivity.
Qed.

Lemma parse_items_cons fromisoformat key v rest :
  parse_items fromisoformat ((key, v) :: rest)
  = match
      (if String.eqb key "created_at" then
         match v with
         | VStr s => option_map VDatetime (fromisoformat (replace_Z s))
         | _ => Some v
         end
       else Some v),
      parse_items fromisoformat rest
    with
    | Some v', Some rest' => Some ((key, v') :: rest')
    | _, _ => None
    end.
Proof. reflexivity. Qed.

Lemma parse_items_prepared fromisoformat items :
  (forall t, In ("created_at", VDatetime t) items ->
             fromisoformat (isoformat t) = Some t) ->
  (forall k t, In (k, VDatetime t) items -> k = "created_at") ->
  (forall s, ~ In ("created_at", VStr s) items) ->
  parse_items fromisoformat (map prepare_item items) = Some items.
Proof.
  induction items as [|[k v] items IH]; intros Hlib Honly Hstr;
    [reflexivity|].
  cbn [map]. assert (Hrest : parse_items fromisoformat (map prepare_item items)
                             = Some items).
  { apply IH.
    - intros t Hin. apply Hlib. now right.
    - intros k0 t Hin. apply (Honly k0 t). now right.
    - intros s Hin. apply (Hstr s). now right. }
  destruct v as [| | | |s|t|l]; unfold prepare_item at 1; cbn [snd fst];
    rewrite parse_items_cons, Hrest;
    try (destruct (String.eqb k "created_at"); reflexivity).
  - destruct (String.eqb_spec k "created_at") as [->|_]; [|reflexivity].
    exfalso. apply (Hstr s). now left.
  - assert (Hk : k = "created_at") by (apply (Honly k t); now left).
    subst k. rewrite String.eqb_refl, replace_Z_isoformat, (Hlib t);
      [reflexivity|now left].
Qed.

Lemma parse_items_without_created_at fromisoformat items :
  ~ In "created_at" (map fst items) ->
  parse_items fromisoformat items = Some items.
Proof.
  induction items as [|[k v] items IH]; intros Hno; [reflexivity|].
  rewrite parse_items_cons, IH by (intros Hin; apply Hno; now right).
  destruct (String.eqb_spec k "created_at") as [->|_]; [|reflexivity].
  exfalso. apply Hno. now left.
Qed.

(** X22.  What prepare_for_mongo stores, parse_from_mongo reads back: for
    a dictionary whose only datetime is its created_at, and whose
    created_at is not a string to begin with, parsing the prepared
    dictionary gives the dictionary itself, provided the library reads
    back the ISO string of that instant.  The "Z" replacement plays no part,
    an ISO string written by the service holding no "Z".  A dictionary
    without created_at, such as a withdrawal, is handed back as it is, its
    other timestamps still strings. *)
Theorem parse_after_prepare fromisoformat items :
  (forall t, In ("created_at", VDatetime t) items ->
             fromisoformat (isoformat t) = Some t) ->
  (forall k t, In (k, VDatetime t) items -> k = "created_at") ->
  (forall s, ~ In ("created_at", VStr s) items) ->
  parse_from_mongo fromisoformat (prepare_for_mongo (VDict items))
  = Some (VDict items)
  /\ (forall t, replace_Z (isoformat t) = isoformat t)
  /\ (forall others,
         ~ In "created_at" (map fst others) ->
         parse_from_mongo fromisoformat (VDict others) = Some (VDict others)).
Proof.
  intros Hlib Honly Hstr. split; [|split; [apply replace_Z_isoformat|]].
  - simpl. now rewrite parse_items_prepared.
  - intros others Hno. simpl.
    now rewrite parse_items_without_created_at.
Qed.

Lemma parse_after_prepare_witness :
  parse_from_mongo Scenario.fromisoformat (prepare_for_mongo Scenario.bonus_dict)
  = Some Scenario.bonus_dict
  /\ (forall t, replace_Z (isoformat t) = isoformat t)
  /\ (forall others,
         ~ In "created_at" (map fst others) ->
         parse_from_mongo Scenario.fromisoformat (VDict others)
         = Some (VDict others)).
Proof.
  apply (parse_after_prepare Scenario.fromisoformat
           [("id", VStr "tx-1"); ("user_id", VStr "alice-id");
            ("type", VStr "referral_bonus"); ("amount", VFloat 5);
            ("description", VStr "Referral bonus for inviting Bob");
            ("created_at", VDatetime (Scenario.clock 0))]).
  - intros t Hin. simpl in Hin.
    repeat (destruct Hin as [Hin|Hin]; [try discriminate Hin|]);
      [|contradiction].
    injection Hin as <-. reflexivity.
  - intros k t Hin. simpl in Hin.
    repeat (destruct Hin as [Hin|Hin]; [try discriminate Hin|]);
      [|contradiction].
    now injection Hin as <- _.
  - intros s Hin. simpl in Hin.
    repeat (destruct Hin as [Hin|Hin]; [discriminate Hin|]). contradiction.
Defined.

(** ** Reading the wallet back *)

Lemma handle_watch_ad e c ad d u :
  get_current_user c d = (Return u, []) ->
  step e (POST_ads_watch c ad) d
  = replay d [users_inc (u_id u) REWARD_AMOUNT REWARD_AMOUNT 1;
              ad_watches_insert
                {| aw_id := uuid4 e 0; aw_user_id := u_id u;
                   aw_ad_type := awc_ad_type ad;
                   aw_reward_amount := REWARD_AMOUNT;
                   aw_watched_at := isoformat (now e 0) |};
              transactions_insert (ad_transaction e ad u)].
Proof.
  intros Hauth. rewrite step_replay. f_equal.
  simpl. rewrite snd_fmap. unfold as_user.
  now rewrite (Depends_ok _ _ _ _ Hauth).
Qed.

Lemma get_wallet_balance_found c d u :
  find_user_by_id (u_id u) d = Some u ->
  c = Payload (Some (u_id u)) ->
  run (as_user c get_wallet_balance) d
  = (Return {| br_balance := wallet_balance u;
               br_total_earned := total_earned u;
               br_ads_watched := ads_watched u |}, d).
Proof.
  intros Hfind ->. unfold run, as_user.
  rewrite (Depends_ok _ _ _ _ (get_current_user_found _ _ _ Hfind)).
  unfold get_wallet_balance, bind, read. simpl. now rewrite Hfind.
Qed.

(** X23.  For a caller who authenticates, get_wallet_balance finds the
    caller's document again and returns its three figures (the branch where
    the document is missing is not taken): right after an ad watch they are
    wallet_balance and total_earned 0.5 higher and one ad more; right after
    a withdrawal request for an amount of at least 10 and at most the
    balance, the wallet_balance lowered by the amount and the two counters
    as they were. *)
Theorem balance_route_follows_writes e c d u :
  get_current_user c d = (Return u, []) ->
  run (as_user c get_wallet_balance) d
  = (Return {| br_balance := wallet_balance u;
               br_total_earned := total_earned u;
               br_ads_watched := ads_watched u |}, d)
  /\ (forall ad,
         exists b,
           fst (run (as_user c get_wallet_balance) (step e (POST_ads_watch c ad) d))
           = Return b
           /\ br_balance b == wallet_balance u + (1 # 2)
           /\ br_total_earned b == total_earned u + (1 # 2)
           /\ br_ads_watched b = (ads_watched u + 1)%Z)
  /\ (forall body,
         10 <= wc_amount body -> wc_amount body <= wallet_balance u ->
         exists b,
           fst (run (as_user c get_wallet_balance)
                  (step e (POST_withdrawals_request c body) d))
           = Return b
           /\ br_balance b == wallet_balance u - wc_amount body
           /\ br_total_earned b == total_earned u
           /\ br_ads_watched b = ads_watched u).
Proof.
  intros Hauth. pose proof Hauth as Hinv.
  apply get_current_user_inv in Hinv as (_ & Hc & Hfind).
  split; [now apply get_wallet_balance_found|]. split.
  - intros ad. rewrite (handle_watch_ad e c ad d u Hauth).
    eexists. split.
    + rewrite (get_wallet_balance_found c _ (inc_user REWARD_AMOUNT REWARD_AMOUNT 1 u));
        [reflexivity| |exact Hc].
      exact (find_user_after_inc _ _ _ _ _ _ Hfind).
    + simpl. repeat split; reflexivity.
  - intros body Hmin Hbal.
    rewrite (handle_request_withdrawal e c body d u Hauth Hmin Hbal).
    eexists. split.
    + rewrite (get_wallet_balance_found c _ (inc_user (- wc_amount body) 0 0 u));
        [reflexivity| |exact Hc].
      exact (find_user_after_inc _ _ _ _ _ _ Hfind).
    + simpl. split; [reflexivity|]. split; [lra|lia].
Qed.

Lemma balance_route_follows_writes_witness :
  run (as_user Scenario.as_alice get_wallet_balance) Scenario.db
  = (Return {| br_balance := 25 # 2; br_total_earned := 25 # 2;
               br_ads_watched := 15 |}, Scenario.db)
  /\ exists b,
       fst (run (as_user Scenario.as_alice get_wallet_balance)
              (step Scenario.env
                 (POST_withdrawals_request Scenario.as_alice
                    (Scenario.withdraw 12)) Scenario.db))
       = Return b
       /\ br_balance b == wallet_balance Scenario.alice - 12
       /\ br_total_earned b == total_earned Scenario.alice
       /\ br_ads_watched b = ads_watched Scenario.alice.
Proof.
  split.
  - apply (balance_route_follows_writes Scenario.env Scenario.as_alice
             Scenario.db Scenario.alice). reflexivity.
  - apply (balance_route_follows_writes Scenario.env Scenario.as_alice
             Scenario.db Scenario.alice eq_refl)
      with (body := Scenario.withdraw 12); simpl; unfold Qle; simpl; lia.
Defined.
